(** * DeviceProfileStorage: the key-value accessor of the device profile service

    A shallow embedding of
    [services/core/src/dbstorage/device_profile_storage.cpp]
    (namespace [OHOS::DeviceProfile]) and the properties its specification
    states about it.

    The class wraps a handle to a distributed key-value store.  The store and
    its manager belong to another component ([OHOS::DistributedKv]); they are
    an interface here ([DistributedKv.Service]) and every result about the
    class holds for all implementations of that interface.  One
    implementation, a finite map, is given in [MapStore].

    The methods are written in a state monad over the object's fields, the
    state of the external store and a log of the effects a method performs
    itself (calls to the store, sleeps, callback invocation, writes of the
    initialisation status).  Calls are sequential: the reader-writer lock
    [storageLock_] and the log output ([HILOGx], [GetTickCount]) have no
    effect on the values computed and are left out. *)

From Stdlib Require Import ZArith Lia.
From stdpp Require Import gmap strings list.
From Equations Require Import Equations.

(** ** Fixed-width integers *)

Module Int.

(** [int32_t]: two's complement wrap-around. *)
Definition int32_wrap (z : Z) : Z := ((z + 2 ^ 31) mod 2 ^ 32 - 2 ^ 31)%Z.

(** [uint32_t]: arithmetic modulo [2^32]. *)
Definition uint32_wrap (z : Z) : Z := (z mod 2 ^ 32)%Z.

Definition in_int32 (z : Z) : Prop := (- 2 ^ 31 <= z < 2 ^ 31)%Z.

End Int.

(** ** The collaborator: [OHOS::DistributedKv] *)

Module DistributedKv.

(** Modelled from the spec: the declarations of [Key], [Value] and [Entry]
    ([types.h] of the store) are not part of the source; the specification
    has "ProfileEntry: (key: string, value: byte-sequence) pair".  A blob
    holds the bytes of the string it is built from and [ToString] gives them
    back. *)
Record Blob : Type := mkBlob { blob_ : string }.

Definition Key : Type := Blob.
Definition Value : Type := Blob.

Definition ToString (b : Blob) : string := blob_ b.

Record Entry : Type := mkEntry { key : Key; value : Value }.

(** The interface of the store manager ([DistributedKvDataManager]) and of a
    store ([SingleKvStore]).  [World] is the state of the external service;
    every call may change it.  [GetSingleKvStore] receives the caller's
    pointer by reference: it gets the current value and returns the new one. *)
Class Service : Type := {
  World : Type;
  SingleKvStore : Type;
  Options : Type;
  (** [Options()], the value a default-constructed [options_] has *)
  default_Options : Options;
  Status : Type;
  Status_eq_dec :: EqDecision Status;
  SUCCESS : Status;
  (** [static_cast<int32_t>(status)] *)
  status_to_int32 : Status -> Z;
  GetSingleKvStore :
    Options -> string -> string -> option SingleKvStore -> World ->
    Status * option SingleKvStore * World;
  DeleteKvStore : string -> string -> World -> Status * World;
  Get : SingleKvStore -> Key -> World -> Status * Value * World;
  Put : SingleKvStore -> Key -> Value -> World -> Status * World;
  PutBatch : SingleKvStore -> list Entry -> World -> Status * World;
  Delete : SingleKvStore -> Key -> World -> Status * World
}.

End DistributedKv.

(** ** The class [DeviceProfileStorage] *)

Module DeviceProfile.

Definition RETRY_TIMES_GET_KVSTORE : Z := 10.

(** Modelled from the spec: the enumeration is declared in
    [device_profile_storage.h], which is not part of the source.  The source
    names [INIT_FAILED] and [INIT_SUCCEED]; the specification has a third
    value, the state before initialisation. *)
Inductive StorageInitStatus : Type := UNINITED | INIT_FAILED | INIT_SUCCEED.

#[global] Instance StorageInitStatus_eq_dec : EqDecision StorageInitStatus.
Proof. solve_decision. Defined.

(** What the class takes from its own headers: the type of the completion
    callback ([std::function<void()>], a value of it is a non-empty
    function) and the error code of [device_profile_errors.h]. *)
Class Config : Type := {
  KvStoreInitCallback : Type;
  ERR_DP_INVALID_PARAMS : Z
}.

(** The result of running a method whose loop need not terminate. *)
Inductive Outcome (A : Type) : Type :=
| Returns (a : A)
| OutOfFuel
| OutOfRange.
Arguments Returns {A} a.
Arguments OutOfFuel {A}.
Arguments OutOfRange {A}.

Section Storage.

Context `{KV : DistributedKv.Service} `{CFG : Config}.

Import DistributedKv.

(** The fields of the object.  A null [kvStorePtr_] and an empty
    [kvStoreInitCallback_] are [None]. *)
Record DeviceProfileStorage : Type := mkStorage {
  options_ : Options;
  appId_ : string;
  storeId_ : string;
  kvStorePtr_ : option SingleKvStore;
  kvStoreInitCallback_ : option KvStoreInitCallback;
  initStatus_ : StorageInitStatus
}.


Definition set_kvStorePtr_ (p : option SingleKvStore) (d : DeviceProfileStorage) :=
  mkStorage (options_ d) (appId_ d) (storeId_ d) p
            (kvStoreInitCallback_ d) (initStatus_ d).

Definition set_kvStoreInitCallback_ (c : option KvStoreInitCallback)
    (d : DeviceProfileStorage) :=
  mkStorage (options_ d) (appId_ d) (storeId_ d) (kvStorePtr_ d) c (initStatus_ d).

Definition set_initStatus_ (i : StorageInitStatus) (d : DeviceProfileStorage) :=
  mkStorage (options_ d) (appId_ d) (storeId_ d) (kvStorePtr_ d)
            (kvStoreInitCallback_ d) i.

(** What a method does itself, in the order it does it. *)
Inductive Event : Type :=
| EvGetSingleKvStore
| EvDeleteKvStore
| EvGet (h : SingleKvStore) (k : Key)
| EvPut (h : SingleKvStore) (k : Key) (v : Value)
| EvPutBatch (h : SingleKvStore) (entries : list Entry)
| EvDelete (h : SingleKvStore) (k : Key)
| EvSleep (ms : Z)
| EvInvokeCallback (cb : KvStoreInitCallback)
| EvSetInitStatus (i : StorageInitStatus).

Record Sys : Type := mkSys {
  this : DeviceProfileStorage;
  world : World;
  trace : list Event
}.

(** The code behind a callback is the client's.  It runs without the lock
    and may call the object's public methods and the store, so it is any
    function of the object and the world. *)
Class CallbackRunner : Type :=
  invoke : KvStoreInitCallback ->
           DeviceProfileStorage * World -> DeviceProfileStorage * World.

Context `{RUN : CallbackRunner}.

(** *** The monad *)

Definition M (A : Type) : Type := Sys -> A * Sys.

Definition ret {A} (a : A) : M A := fun s => (a, s).

Definition bind {A B} (m : M A) (k : A -> M B) : M B :=
  fun s => let (a, s') := m s in k a s'.

Notation "x <- c ;; k" := (bind c (fun x => k))
  (at level 100, c at next level, right associativity).
Notation "c ;;; k" := (bind c (fun _ => k))
  (at level 100, right associativity).

Definition field {A} (f : DeviceProfileStorage -> A) : M A :=
  fun s => (f (this s), s).

Definition assign (f : DeviceProfileStorage -> DeviceProfileStorage) : M unit :=
  fun s => (tt, mkSys (f (this s)) (world s) (trace s)).

Definition emit (e : Event) : M unit :=
  fun s => (tt, mkSys (this s) (world s) (trace s ++ [e])).

Definition call {A} (f : World -> A * World) : M A :=
  fun s => let (a, w) := f (world s) in (a, mkSys (this s) w (trace s)).

Definition run_callback (cb : KvStoreInitCallback) : M unit :=
  fun s => let (d, w) := invoke cb (this s, world s) in (tt, mkSys d w (trace s)).

(** *** Construction and configuration *)

(** The constructor.  Modelled from the spec: the initial values of the
    fields it does not set are given in the header, which is not part of the
    source; the specification has the handle null until it is acquired, no
    callback registered and the state before initialisation. *)
Definition new (appId storeId : string) : DeviceProfileStorage :=
  mkStorage default_Options appId storeId None None UNINITED.


(** *** [RegisterKvStoreInitCallback] *)

Definition RegisterKvStoreInitCallback (callback : option KvStoreInitCallback)
  : M bool :=
  cur <- field kvStoreInitCallback_ ;;
  match cur with
  | Some _ => ret false
  | None => assign (set_kvStoreInitCallback_ callback) ;;; ret true
  end.

(** A client that registers one callback after the other; the list of the
    results is returned. *)
Fixpoint register_all (callbacks : list (option KvStoreInitCallback))
  : M (list bool) :=
  match callbacks with
  | [] => ret []
  | callback :: rest =>
      b <- RegisterKvStoreInitCallback callback ;;
      bs <- register_all rest ;;
      ret (b :: bs)
  end.

(** *** [GetKvStore], [TryGetKvStore], [Init], [GetInitStatus] *)

Definition GetKvStore : M Status :=
  o <- field options_ ;;
  a <- field appId_ ;;
  i <- field storeId_ ;;
  p <- field kvStorePtr_ ;;
  emit EvGetSingleKvStore ;;;
  r <- call (GetSingleKvStore o a i p) ;;
  assign (set_kvStorePtr_ (snd r)) ;;;
  ret (fst r).

Definition non_null {A} (p : option A) : bool :=
  match p with Some _ => true | None => false end.

(** The [while] loop of [TryGetKvStore].  [Some b] is a [return b] from
    inside the loop, [None] is the loop left through its condition.  The
    counter is an [int32_t]; the loop ends because the distance of the
    counter to [RETRY_TIMES_GET_KVSTORE] shrinks. *)
Equations? TryGetKvStore_loop (retryTimes : Z) : M (option bool)
  by wf (Z.to_nat (RETRY_TIMES_GET_KVSTORE - retryTimes)) lt :=
TryGetKvStore_loop retryTimes
  with Z_lt_dec retryTimes RETRY_TIMES_GET_KVSTORE := {
  | left _ =>
      status <- GetKvStore ;;
      p <- field kvStorePtr_ ;;
      if bool_decide (status = SUCCESS) && non_null p
      then ret (Some true)
      else emit (EvSleep 500) ;;;
           TryGetKvStore_loop (Int.int32_wrap (retryTimes + 1))
  | right _ => ret None }.
Proof.
  unfold Int.int32_wrap, RETRY_TIMES_GET_KVSTORE in *.
  destruct (Z_lt_dec retryTimes (- 2 ^ 31)) as [Hlow | Hin].
  - pose proof (Z.mod_pos_bound (retryTimes + 1 + 2 ^ 31) (2 ^ 32)). lia.
  - rewrite Z.mod_small by lia. lia.
Qed.

Definition TryGetKvStore : M bool :=
  r <- TryGetKvStore_loop 0 ;;
  match r with
  | Some b => ret b
  | None =>
      p <- field kvStorePtr_ ;;
      match p with
      | None =>
          emit (EvSetInitStatus INIT_FAILED) ;;;
          assign (set_initStatus_ INIT_FAILED) ;;;
          ret false
      | Some _ => ret true
      end
  end.

Definition Init : M unit :=
  result <- TryGetKvStore ;;
  cb <- field kvStoreInitCallback_ ;;
  match cb with
  | Some f => emit (EvInvokeCallback f) ;;; run_callback f
  | None => ret tt
  end ;;;
  emit (EvSetInitStatus INIT_SUCCEED) ;;;
  assign (set_initStatus_ INIT_SUCCEED).

Definition GetInitStatus : M StorageInitStatus := field initStatus_.

(** *** [DeleteKvStore] *)

Definition DeleteKvStore : M unit :=
  a <- field appId_ ;;
  i <- field storeId_ ;;
  emit EvDeleteKvStore ;;;
  status <- call (DistributedKv.DeleteKvStore a i) ;;
  ret tt.

(** *** [GetDeviceProfile], [PutDeviceProfile], [DeleteDeviceProfile]

    [GetDeviceProfile] has an output parameter: the method takes the
    caller's [value] and returns, next to the code, what the caller's
    string holds afterwards. *)

Definition GetDeviceProfile (key value : string) : M (Z * string) :=
  p <- field kvStorePtr_ ;;
  match p with
  | None => ret (ERR_DP_INVALID_PARAMS, value)
  | Some h =>
      let k := mkBlob key in
      emit (EvGet h k) ;;;
      r <- call (Get h k) ;;
      let (status, v) := r in
      if bool_decide (status = SUCCESS)
      then ret (status_to_int32 status, ToString v)
      else ret (status_to_int32 status, value)
  end.

Definition PutDeviceProfile (key value : string) : M Z :=
  p <- field kvStorePtr_ ;;
  match p with
  | None => ret ERR_DP_INVALID_PARAMS
  | Some h =>
      let k := mkBlob key in
      let v := mkBlob value in
      emit (EvPut h k v) ;;;
      status <- call (Put h k v) ;;
      ret (status_to_int32 status)
  end.

Definition DeleteDeviceProfile (key : string) : M Z :=
  p <- field kvStorePtr_ ;;
  match p with
  | None => ret ERR_DP_INVALID_PARAMS
  | Some h =>
      let k := mkBlob key in
      emit (EvDelete h k) ;;;
      status <- call (Delete h k) ;;
      ret (status_to_int32 status)
  end.

(** *** [PutDeviceProfileBatch]

    The [for] loop that fills [entries].  Its index [i] is a [uint32_t] and
    wraps; its bound [keySize] is a [size_t], the exact size of [keys].
    Every test of the loop condition takes one unit of fuel.  [keys[i]] and
    [values[i]] are unchecked accesses: outside the vector there is no
    defined result. *)
Fixpoint build_entries (fuel : nat) (keys values : list string) (keySize i : Z)
    (entries : list Entry) : Outcome (list Entry) :=
  match fuel with
  | O => OutOfFuel
  | S fuel' =>
      if (i <? keySize)%Z then
        match keys !! Z.to_nat i, values !! Z.to_nat i with
        | Some k, Some v =>
            build_entries fuel' keys values keySize (Int.uint32_wrap (i + 1))
                          (entries ++ [mkEntry (mkBlob k) (mkBlob v)])
        | _, _ => OutOfRange
        end
      else Returns entries
  end.

Definition PutDeviceProfileBatch (fuel : nat) (keys values : list string)
  : M (Outcome Z) :=
  p <- field kvStorePtr_ ;;
  match p with
  | None => ret (Returns ERR_DP_INVALID_PARAMS)
  | Some h =>
      let keySize := Z.of_nat (length keys) in
      let valSize := Z.of_nat (length values) in
      if bool_decide (keySize <> valSize)
      then ret (Returns ERR_DP_INVALID_PARAMS)
      else
        match build_entries fuel keys values keySize 0 [] with
        | Returns entries =>
            emit (EvPutBatch h entries) ;;;
            status <- call (PutBatch h entries) ;;
            ret (Returns (status_to_int32 status))
        | OutOfFuel => ret OutOfFuel
        | OutOfRange => ret OutOfRange
        end
  end.

(** The entries the specification describes: "a sequence of entries
    preserving input order", entry [i] made of [keys[i]] and [values[i]]. *)
Definition entries_in_order (keys values : list string) : list Entry :=
  zip_with (fun k v => mkEntry (mkBlob k) (mkBlob v)) keys values.

(** *** Observations on the log *)

Definition is_attempt (e : Event) : bool :=
  match e with EvGetSingleKvStore => true | _ => false end.

Definition is_sleep (e : Event) : bool :=
  match e with EvSleep _ => true | _ => false end.

Definition is_callback (e : Event) : bool :=
  match e with EvInvokeCallback _ => true | _ => false end.

Definition is_succeed_mark (e : Event) : bool :=
  match e with EvSetInitStatus INIT_SUCCEED => true | _ => false end.

Definition is_store_call (e : Event) : bool :=
  match e with
  | EvGet _ _ | EvPut _ _ _ | EvPutBatch _ _ | EvDelete _ _ => true
  | _ => false
  end.

Definition count (f : Event -> bool) (evs : list Event) : nat :=
  length (filter (fun e => f e = true) evs).

Definition attempts : list Event -> nat := count is_attempt.
Definition sleeps : list Event -> nat := count is_sleep.

(** Total time slept, in milliseconds. *)
Fixpoint slept (evs : list Event) : Z :=
  match evs with
  | [] => 0
  | EvSleep ms :: evs' => ms + slept evs'
  | _ :: evs' => slept evs'
  end.

(** Two states of the object that differ at most in the handle. *)
Definition same_but_ptr (d d' : DeviceProfileStorage) : Prop :=
  options_ d' = options_ d /\ appId_ d' = appId_ d /\ storeId_ d' = storeId_ d /\
  kvStoreInitCallback_ d' = kvStoreInitCallback_ d /\
  initStatus_ d' = initStatus_ d.

(** What the loop has done when it is over, started with the counter at
    [retryTimes]: it has only called the store manager and slept; it either
    left through [return true] right after an acquisition that gave a
    handle, or made every remaining attempt and slept after each. *)
Definition loop_result (retryTimes : Z) (s : Sys) (r : option bool * Sys) : Prop :=
  exists evs,
    trace (snd r) = trace s ++ evs /\
    same_but_ptr (this s) (this (snd r)) /\
    Forall (fun e => e = EvGetSingleKvStore \/ e = EvSleep 500) evs /\
    ((fst r = Some true /\
      non_null (kvStorePtr_ (this (snd r))) = true /\
      last evs = Some EvGetSingleKvStore /\
      (Z.of_nat (attempts evs) <= RETRY_TIMES_GET_KVSTORE - retryTimes)%Z /\
      S (sleeps evs) = attempts evs)
     \/
     (fst r = None /\
      Z.of_nat (attempts evs) = (RETRY_TIMES_GET_KVSTORE - retryTimes)%Z /\
      sleeps evs = attempts evs)).

(** A store manager that refuses [n] acquisitions and then hands out a
    handle: [first_success n s s'] when, from [s], the calls of [GetKvStore]
    that [TryGetKvStore] makes, each but the last followed by the sleep of
    the loop, reach [s'] with the attempt number [n + 1], the first that
    passes the test of the loop. *)
Inductive first_success : nat -> Sys -> Sys -> Prop :=
| first_success_now (s s1 : Sys) :
    GetKvStore s = (SUCCESS, s1) ->
    non_null (kvStorePtr_ (this s1)) = true ->
    first_success 0 s s1
| first_success_later (n : nat) (s s1 s' : Sys) (status : Status) :
    GetKvStore s = (status, s1) ->
    bool_decide (status = SUCCESS) && non_null (kvStorePtr_ (this s1)) = false ->
    first_success n
      (mkSys (this s1) (world s1) (trace s1 ++ [EvSleep 500])) s' ->
    first_success (S n) s s'.

(** The events [Init] can perform itself. *)
Definition is_init_event (e : Event) : Prop :=
  e = EvGetSingleKvStore \/ e = EvSleep 500 \/
  e = EvSetInitStatus INIT_FAILED \/ e = EvSetInitStatus INIT_SUCCEED \/
  exists cb, e = EvInvokeCallback cb.

End Storage.

End DeviceProfile.

(** ** A store kept in a finite map *)

Module MapStore.

Import DistributedKv DeviceProfile.

(** Modelled from the spec: the store itself is not part of the source.  The
    specification describes it as a key-value store with unique keys, of
    which [Get] reports a key never put with a status of its own, whose
    batch write stores every entry, and whose handle may fail to be
    obtained.  [outages] counts the acquisitions that will still fail. *)
Inductive MapStatus : Type := OK | DB_ERROR | KEY_NOT_FOUND.

#[global] Instance MapStatus_eq_dec : EqDecision MapStatus.
Proof. solve_decision. Defined.

(** Modelled from the spec: the numbers of the status codes ("opaque
    integers from the collaborator") are not part of the source; success is
    zero. *)
Definition MapStatus_code (s : MapStatus) : Z :=
  match s with OK => 0 | DB_ERROR => 1 | KEY_NOT_FOUND => 7 end.

(** Modelled from the spec: the contents of the store, "keys unique within
    the store", and the acquisitions that will still fail. *)
Record MapWorld : Type := mkWorld {
  data : gmap string string;
  outages : nat
}.

(** Modelled from the spec: [GetSingleStore(options, ownerId, storeId) ->
    (status, handle)].  A failed acquisition leaves the caller's pointer as
    it is. *)
Definition map_GetSingleKvStore (o : unit) (appId storeId : string)
    (p : option unit) (w : MapWorld) : MapStatus * option unit * MapWorld :=
  match outages w with
  | O => (OK, Some tt, w)
  | S n => (DB_ERROR, p, mkWorld (data w) n)
  end.

(** Modelled from the spec: [DeleteStore(ownerId, storeId) -> status],
    "deletion of the entire store". *)
Definition map_DeleteKvStore (appId storeId : string) (w : MapWorld)
  : MapStatus * MapWorld :=
  (OK, mkWorld ∅ (outages w)).

(** Modelled from the spec: [Get(key) -> (status, value)]; "for all keys
    never put, [get(key)] returns a NotFound-equivalent status". *)
Definition map_Get (h : unit) (k : Key) (w : MapWorld)
  : MapStatus * Value * MapWorld :=
  match data w !! blob_ k with
  | Some v => (OK, mkBlob v, w)
  | None => (KEY_NOT_FOUND, mkBlob EmptyString, w)
  end.

(** Modelled from the spec: [Put(key, value) -> status]. *)
Definition map_Put (h : unit) (k : Key) (v : Value) (w : MapWorld)
  : MapStatus * MapWorld :=
  (OK, mkWorld (<[blob_ k := blob_ v]> (data w)) (outages w)).

(** Modelled from the spec: [PutBatch(entries[]) -> status], "multiple
    key-value writes submitted as one logical operation", all of them
    written, in the order of the entries. *)
Definition map_PutBatch (h : unit) (entries : list Entry) (w : MapWorld)
  : MapStatus * MapWorld :=
  (OK, mkWorld (foldl (fun m e => <[blob_ (key e) := blob_ (value e)]> m)
                      (data w) entries)
               (outages w)).

(** Modelled from the spec: [Delete(key) -> status]. *)
Definition map_Delete (h : unit) (k : Key) (w : MapWorld)
  : MapStatus * MapWorld :=
  (OK, mkWorld (delete (blob_ k) (data w)) (outages w)).

#[global] Instance map_service : Service := {|
  World := MapWorld;
  SingleKvStore := unit;
  Options := unit;
  default_Options := tt;
  Status := MapStatus;
  SUCCESS := OK;
  status_to_int32 := MapStatus_code;
  GetSingleKvStore := map_GetSingleKvStore;
  DistributedKv.DeleteKvStore := map_DeleteKvStore;
  Get := map_Get;
  Put := map_Put;
  PutBatch := map_PutBatch;
  Delete := map_Delete
|}.

(** A client whose callbacks write one pair into the store, and a value for
    the error code. *)
#[global] Instance map_config : Config := {|
  KvStoreInitCallback := string * string;
  ERR_DP_INVALID_PARAMS := 98566145
|}.

#[global] Instance map_runner : CallbackRunner :=
  fun cb dw =>
    (fst dw, mkWorld (<[fst cb := snd cb]> (data (snd dw))) (outages (snd dw))).


(** A fresh object over an empty store of which the next [n] acquisitions
    fail. *)
Definition fresh (n : nat) : Sys :=
  mkSys (new "app" "store") (mkWorld ∅ n) [].

(** The same object with the handle obtained. *)
Definition opened : Sys :=
  mkSys (set_kvStorePtr_ (Some tt) (new "app" "store")) (mkWorld ∅ 0) [].

End MapStore.

(** ** A store manager that is down *)

Module DownStore.

Import DistributedKv DeviceProfile MapStore.

(** Modelled from the spec: a manager of which every acquisition fails
    ("the store cannot be acquired") and leaves the caller's pointer as it
    is; the stores are those of [MapStore]. *)
Definition down_GetSingleKvStore (o : unit) (appId storeId : string)
    (p : option unit) (w : MapWorld) : MapStatus * option unit * MapWorld :=
  (DB_ERROR, p, w).

Definition down_service : Service := {|
  World := MapWorld;
  SingleKvStore := unit;
  Options := unit;
  default_Options := tt;
  Status := MapStatus;
  SUCCESS := OK;
  status_to_int32 := MapStatus_code;
  GetSingleKvStore := down_GetSingleKvStore;
  DistributedKv.DeleteKvStore := map_DeleteKvStore;
  Get := map_Get;
  Put := map_Put;
  PutBatch := map_PutBatch;
  Delete := map_Delete
|}.

(** An object that got its handle while the manager was up. *)
Definition down_opened : @Sys down_service map_config :=
  @mkSys down_service map_config
    (@set_kvStorePtr_ down_service map_config (Some tt)
       (@new down_service map_config "app" "store"))
    (mkWorld ∅ 0) [].

End DownStore.

(** * Properties *)

Import DistributedKv DeviceProfile.

(** ** Fixed-width integers *)

Lemma int32_wrap_in_range (z : Z) : Int.in_int32 z -> Int.int32_wrap z = z.
Proof.
  unfold Int.in_int32, Int.int32_wrap. intros Hz.
  rewrite Z.mod_small by lia. lia.
Qed.

Lemma uint32_wrap_in_range (z : Z) : (0 <= z < 2 ^ 32)%Z -> Int.uint32_wrap z = z.
Proof. unfold Int.uint32_wrap. intros Hz. apply Z.mod_small. lia. Qed.

Lemma uint32_wrap_bound (z : Z) : (0 <= Int.uint32_wrap z < 2 ^ 32)%Z.
Proof. unfold Int.uint32_wrap. apply Z.mod_pos_bound. lia. Qed.

(** ** Counting the events of a run *)

Section Events.

Context `{KV : Service} `{CFG : Config}.

Lemma count_nil f : count f [] = 0.
Proof. reflexivity. Qed.

Lemma count_app f evs1 evs2 : count f (evs1 ++ evs2) = count f evs1 + count f evs2.
Proof. unfold count. rewrite filter_app, length_app. reflexivity. Qed.

Lemma count_cons f e evs :
  count f (e :: evs) = (if f e then 1 else 0) + count f evs.
Proof.
  unfold count. destruct (f e) eqn:He.
  - rewrite filter_cons_True by assumption. reflexivity.
  - rewrite filter_cons_False by congruence. reflexivity.
Qed.

Lemma slept_app evs1 evs2 : slept (evs1 ++ evs2) = (slept evs1 + slept evs2)%Z.
Proof.
  induction evs1 as [| e evs1 IH]; simpl; [reflexivity |].
  destruct e; rewrite IH; lia.
Qed.

End Events.

(** ** The methods, unfolded *)

Section Facts.

Context `{KV : Service} `{CFG : Config} `{RUN : !CallbackRunner}.

Ltac run := unfold bind, ret, field, assign, emit, call, run_callback; simpl.

Lemma same_but_ptr_refl d : same_but_ptr d d.
Proof. unfold same_but_ptr. tauto. Qed.

Lemma same_but_ptr_trans d1 d2 d3 :
  same_but_ptr d1 d2 -> same_but_ptr d2 d3 -> same_but_ptr d1 d3.
Proof. unfold same_but_ptr. intuition congruence. Qed.

Lemma GetKvStore_unfold (s : Sys) :
  GetKvStore s =
  let r := GetSingleKvStore (options_ (this s)) (appId_ (this s))
             (storeId_ (this s)) (kvStorePtr_ (this s)) (world s) in
  (fst (fst r),
   mkSys (set_kvStorePtr_ (snd (fst r)) (this s)) (snd r)
         (trace s ++ [EvGetSingleKvStore])).
Proof.
  unfold GetKvStore. run.
  destruct (GetSingleKvStore _ _ _ _ _) as [[status p] w]. reflexivity.
Qed.

Lemma GetKvStore_effect (s : Sys) :
  same_but_ptr (this s) (this (snd (GetKvStore s))) /\
  trace (snd (GetKvStore s)) = trace s ++ [EvGetSingleKvStore].
Proof.
  rewrite GetKvStore_unfold. simpl. split; [| reflexivity].
  unfold same_but_ptr. simpl. tauto.
Qed.

(** One turn of the loop of [TryGetKvStore]. *)
Lemma TryGetKvStore_loop_unfold_run (retryTimes : Z) (s : Sys) :
  TryGetKvStore_loop retryTimes s =
  if Z_lt_dec retryTimes RETRY_TIMES_GET_KVSTORE then
    let r := GetKvStore s in
    if bool_decide (fst r = SUCCESS) && non_null (kvStorePtr_ (this (snd r)))
    then (Some true, snd r)
    else TryGetKvStore_loop (Int.int32_wrap (retryTimes + 1))
           (mkSys (this (snd r)) (world (snd r)) (trace (snd r) ++ [EvSleep 500]))
  else (None, s).
Proof.
  rewrite TryGetKvStore_loop_equation_1.
  destruct (Z_lt_dec retryTimes RETRY_TIMES_GET_KVSTORE) as [Hlt | Hge].
  - rewrite TryGetKvStore_loop_clause_1_equation_1. run.
    destruct (GetKvStore s) as [status s1]. simpl.
    destruct (bool_decide (status = SUCCESS) && non_null (kvStorePtr_ (this s1)));
      reflexivity.
  - reflexivity.
Qed.

Lemma TryGetKvStore_loop_spec (n : nat) :
  forall (retryTimes : Z) (s : Sys),
    (0 <= retryTimes <= RETRY_TIMES_GET_KVSTORE)%Z ->
    Z.to_nat (RETRY_TIMES_GET_KVSTORE - retryTimes) = n ->
    loop_result retryTimes s (TryGetKvStore_loop retryTimes s).
Proof.
  unfold loop_result, RETRY_TIMES_GET_KVSTORE.
  induction n as [| n IH]; intros retryTimes s Hr Hn;
    rewrite TryGetKvStore_loop_unfold_run; unfold RETRY_TIMES_GET_KVSTORE;
    destruct (Z_lt_dec retryTimes 10) as [Hlt | Hge]; try lia.
  - exists []. simpl. rewrite app_nil_r.
    split; [reflexivity |]. split; [apply same_but_ptr_refl |].
    split; [constructor |]. right. unfold attempts, sleeps.
    rewrite !count_nil. repeat split; lia.
  - destruct (GetKvStore_effect s) as [Hsame Htrace].
    destruct (GetKvStore s) as [status s1]. simpl in *.
    destruct (bool_decide (status = SUCCESS) && non_null (kvStorePtr_ (this s1)))
      eqn:Hok.
    + exists [EvGetSingleKvStore]. simpl.
      split; [assumption |]. split; [assumption |].
      split; [constructor; [left; reflexivity | constructor] |]. left.
      apply andb_true_iff in Hok as [_ Hnn].
      unfold attempts, sleeps. rewrite !count_cons, !count_nil. simpl.
      repeat split; try assumption; try lia.
    + rewrite int32_wrap_in_range by (unfold Int.in_int32; lia).
      set (s2 := mkSys (this s1) (world s1) (trace s1 ++ [EvSleep 500])).
      destruct (IH (retryTimes + 1)%Z s2 ltac:(lia) ltac:(lia))
        as (evs & Htr & Hsame' & Hall & Hcases).
      exists (EvGetSingleKvStore :: EvSleep 500 :: evs).
      split.
      { rewrite Htr. unfold s2. simpl. rewrite Htrace, <- !app_assoc. reflexivity. }
      split.
      { eapply same_but_ptr_trans; [exact Hsame | exact Hsame']. }
      split.
      { constructor; [left; reflexivity |].
        constructor; [right; reflexivity | assumption]. }
      unfold attempts, sleeps in *. rewrite !count_cons. simpl.
      destruct Hcases as [(Hres & Hnn & Hlast & Hatt & Hsl)
                         | (Hres & Hatt & Hsl)].
      * left. repeat split; try assumption; try lia.
        destruct evs as [| e evs']; [discriminate Hlast | exact Hlast].
      * right. repeat split; try assumption; lia.
Qed.

Lemma TryGetKvStore_loop_from_zero (s : Sys) :
  loop_result 0 s (TryGetKvStore_loop 0 s).
Proof.
  apply (TryGetKvStore_loop_spec (Z.to_nat RETRY_TIMES_GET_KVSTORE));
    unfold RETRY_TIMES_GET_KVSTORE; [lia | reflexivity].
Qed.

(** A successful acquisition ends the loop at once, whatever the counter. *)
Lemma TryGetKvStore_loop_success (retryTimes : Z) (s s1 : Sys) :
  (retryTimes < RETRY_TIMES_GET_KVSTORE)%Z ->
  GetKvStore s = (SUCCESS, s1) ->
  non_null (kvStorePtr_ (this s1)) = true ->
  TryGetKvStore_loop retryTimes s = (Some true, s1).
Proof.
  intros Hlt Hget Hnn. rewrite TryGetKvStore_loop_unfold_run.
  destruct (Z_lt_dec retryTimes RETRY_TIMES_GET_KVSTORE); [| contradiction].
  rewrite Hget. simpl. rewrite Hnn, bool_decide_eq_true_2 by reflexivity.
  reflexivity.
Qed.

Lemma TryGetKvStore_unfold (s : Sys) :
  TryGetKvStore s =
  let r := TryGetKvStore_loop 0 s in
  match fst r with
  | Some b => (b, snd r)
  | None =>
      match kvStorePtr_ (this (snd r)) with
      | None =>
          (false,
           mkSys (set_initStatus_ INIT_FAILED (this (snd r))) (world (snd r))
                 (trace (snd r) ++ [EvSetInitStatus INIT_FAILED]))
      | Some _ => (true, snd r)
      end
  end.
Proof.
  unfold TryGetKvStore. run.
  destruct (TryGetKvStore_loop 0 s) as [[b |] s1]; simpl; [reflexivity |].
  destruct (kvStorePtr_ (this s1)); reflexivity.
Qed.

Lemma Init_unfold (s : Sys) :
  Init s =
  let s1 := snd (TryGetKvStore s) in
  match kvStoreInitCallback_ (this s1) with
  | Some f =>
      let dw := invoke f (this s1, world s1) in
      (tt, mkSys (set_initStatus_ INIT_SUCCEED (fst dw)) (snd dw)
                 (trace s1 ++ [EvInvokeCallback f; EvSetInitStatus INIT_SUCCEED]))
  | None =>
      (tt, mkSys (set_initStatus_ INIT_SUCCEED (this s1)) (world s1)
                 (trace s1 ++ [EvSetInitStatus INIT_SUCCEED]))
  end.
Proof.
  unfold Init. run.
  destruct (TryGetKvStore s) as [result s1]. simpl.
  destruct (kvStoreInitCallback_ (this s1)) as [f |]; simpl; [| reflexivity].
  destruct (invoke f (this s1, world s1)) as [d w]. simpl.
  rewrite <- app_assoc. reflexivity.
Qed.

Lemma slept_loop_events (evs : list Event) :
  Forall (fun e => e = EvGetSingleKvStore \/ e = EvSleep 500) evs ->
  slept evs = (500 * Z.of_nat (sleeps evs))%Z /\
  count is_callback evs = 0 /\ count is_succeed_mark evs = 0 /\
  count is_store_call evs = 0.
Proof.
  unfold sleeps.
  induction 1 as [| e evs He _ IH]; [rewrite !count_nil; simpl; lia |].
  rewrite !count_cons. destruct He as [-> | ->]; simpl; lia.
Qed.

(** What [TryGetKvStore] has done when it returns. *)
Lemma TryGetKvStore_spec (s : Sys) :
  exists evs,
    trace (snd (TryGetKvStore s)) = trace s ++ evs /\
    attempts evs <= 10 /\
    (slept evs <= 5000)%Z /\
    count is_callback evs = 0 /\ count is_succeed_mark evs = 0 /\
    count is_store_call evs = 0 /\
    kvStoreInitCallback_ (this (snd (TryGetKvStore s))) =
      kvStoreInitCallback_ (this s) /\
    fst (TryGetKvStore s) = non_null (kvStorePtr_ (this (snd (TryGetKvStore s)))) /\
    (if fst (TryGetKvStore s)
     then initStatus_ (this (snd (TryGetKvStore s))) = initStatus_ (this s)
     else initStatus_ (this (snd (TryGetKvStore s))) = INIT_FAILED /\
          last evs = Some (EvSetInitStatus INIT_FAILED)) /\
    ((fst (TryGetKvStore s) = true /\ last evs = Some EvGetSingleKvStore /\
      S (sleeps evs) = attempts evs)
     \/ (attempts evs = 10 /\ sleeps evs = 10)).
Proof.
  rewrite TryGetKvStore_unfold.
  destruct (TryGetKvStore_loop_from_zero s)
    as (evs & Htr & Hsame & Hall & Hcases).
  destruct (slept_loop_events evs Hall) as (Hslept & Hcb & Hmark & Hstore).
  destruct Hsame as (_ & _ & _ & Hcbk & Hinit).
  unfold attempts, sleeps, RETRY_TIMES_GET_KVSTORE in *.
  destruct (TryGetKvStore_loop 0 s) as [res s1]. simpl in *.
  destruct Hcases as [(Hres & Hnn & Hlast & Hatt & Hsl) | (Hres & Hatt & Hsl)];
    subst res; simpl.
  - exists evs. rewrite Hnn. repeat split; try assumption; try lia.
    left. repeat split; assumption.
  - destruct (kvStorePtr_ (this s1)) as [h |] eqn:Hp; simpl.
    + exists evs. rewrite Hp. simpl.
      repeat split; first [assumption | lia].
    + exists (evs ++ [EvSetInitStatus INIT_FAILED]).
      rewrite !count_app, !count_cons, !count_nil, slept_app, last_snoc.
      simpl. rewrite Hp, app_assoc. simpl.
      repeat split; try first [assumption | lia].
      rewrite Htr. reflexivity.
Qed.

(** ** Initialisation *)

(** C1.  When [Init] has returned, [GetInitStatus] gives [INIT_SUCCEED],
    whatever the store manager and the callback did.  This includes the runs
    in which [TryGetKvStore] gave up: there all ten attempts were made, the
    handle is null and the status was set to [INIT_FAILED], and the last
    assignment of [Init] replaces that mark. *)
Theorem Init_status_always_succeed (s : Sys) :
  fst (GetInitStatus (snd (Init s))) = INIT_SUCCEED /\
  (fst (TryGetKvStore s) = false ->
   kvStorePtr_ (this (snd (TryGetKvStore s))) = None /\
   initStatus_ (this (snd (TryGetKvStore s))) = INIT_FAILED /\
   exists evs,
     trace (snd (TryGetKvStore s)) = trace s ++ evs /\
     attempts evs = 10 /\
     last evs = Some (EvSetInitStatus INIT_FAILED)).
Proof.
  split.
  - rewrite Init_unfold. simpl.
    destruct (kvStoreInitCallback_ (this (snd (TryGetKvStore s)))); reflexivity.
  - intros Hfail.
    destruct (TryGetKvStore_spec s)
      as (evs & Htr & _ & _ & _ & _ & _ & _ & Hres & Hinit & Hcases).
    rewrite Hfail in Hinit, Hres.
    destruct Hinit as [Hinit Hlast].
    destruct Hcases as [(Htrue & _) | (Hatt & _)]; [congruence |].
    split.
    { destruct (kvStorePtr_ (this (snd (TryGetKvStore s)))); [discriminate | reflexivity]. }
    split; [assumption |].
    exists evs. repeat split; assumption.
Qed.

(** C5.  With a callback registered, [Init] invokes it once: after the
    events of [TryGetKvStore], among which there is neither an invocation nor
    a write of [INIT_SUCCEED], the log of [Init] has the invocation and then
    the write of [INIT_SUCCEED], and nothing else.  The callback runs on the
    state [TryGetKvStore] left, whose status [Init] has not touched but for
    the mark [INIT_FAILED]; the status is set in the state the callback
    returned. *)
Theorem Init_callback_before_status (s : Sys) (cb : KvStoreInitCallback) :
  kvStoreInitCallback_ (this s) = Some cb ->
  let s1 := snd (TryGetKvStore s) in
  let dw := invoke cb (this s1, world s1) in
  (exists evs,
     trace s1 = trace s ++ evs /\
     count is_callback evs = 0 /\ count is_succeed_mark evs = 0) /\
  trace (snd (Init s)) =
    trace s1 ++ [EvInvokeCallback cb; EvSetInitStatus INIT_SUCCEED] /\
  (initStatus_ (this s1) = initStatus_ (this s) \/
   initStatus_ (this s1) = INIT_FAILED) /\
  (initStatus_ (this s) <> INIT_SUCCEED -> initStatus_ (this s1) <> INIT_SUCCEED) /\
  this (snd (Init s)) = set_initStatus_ INIT_SUCCEED (fst dw) /\
  world (snd (Init s)) = snd dw.
Proof.
  intros Hcb s1 dw.
  destruct (TryGetKvStore_spec s)
    as (evs & Htr & _ & _ & Hnocb & Hnomark & _ & Hsame & _ & Hinit & _).
  fold s1 in Htr, Hsame, Hinit.
  split.
  { exists evs. repeat split; assumption. }
  rewrite Init_unfold. simpl. fold s1. rewrite Hsame, Hcb. simpl. fold dw.
  split; [reflexivity |].
  assert (Hst : initStatus_ (this s1) = initStatus_ (this s) \/
                initStatus_ (this s1) = INIT_FAILED).
  { destruct (fst (TryGetKvStore s));
      [left; exact Hinit | right; exact (proj1 Hinit)]. }
  split; [exact Hst |].
  split; [| split; reflexivity].
  intros Hne. destruct Hst as [-> | ->]; [exact Hne | discriminate].
Qed.

(** C6.  [TryGetKvStore] returns, and so does [Init]: both are total
    functions of the state, for every store manager.  On the way the manager
    is asked for the store at most ten times and the thread sleeps at most ten
    times 500 ms.  An attempt that gives a handle ends the loop at once with
    [true], at any value of the counter: then the last thing done is that
    attempt, and one sleep fewer than attempts was made.  Otherwise all ten
    attempts and ten sleeps were made and the method still returns, [true]
    exactly when the handle is not null. *)
Theorem TryGetKvStore_bounded_retries (s : Sys) :
  exists (result : bool) (s' : Sys) (evs : list Event),
    TryGetKvStore s = (result, s') /\
    trace s' = trace s ++ evs /\
    attempts evs <= 10 /\
    (slept evs <= 5000)%Z /\
    result = non_null (kvStorePtr_ (this s')) /\
    ((result = true /\ last evs = Some EvGetSingleKvStore /\
      S (sleeps evs) = attempts evs)
     \/ (attempts evs = 10 /\ sleeps evs = 10)) /\
    (forall (retryTimes : Z) (s0 s1 : Sys),
       (retryTimes < RETRY_TIMES_GET_KVSTORE)%Z ->
       GetKvStore s0 = (SUCCESS, s1) ->
       non_null (kvStorePtr_ (this s1)) = true ->
       TryGetKvStore_loop retryTimes s0 = (Some true, s1)) /\
    exists (s'' : Sys) (evs' : list Event),
      Init s = (tt, s'') /\
      trace s'' = trace s ++ evs ++ evs' /\
      attempts evs' = 0 /\ sleeps evs' = 0.
Proof.
  destruct (TryGetKvStore_spec s)
    as (evs & Htr & Hatt & Hslept & _ & _ & _ & _ & Hres & _ & Hcases).
  exists (fst (TryGetKvStore s)), (snd (TryGetKvStore s)), evs.
  split; [apply surjective_pairing |].
  split; [assumption |]. split; [assumption |]. split; [assumption |].
  split; [assumption |]. split; [assumption |].
  split; [intros; eapply TryGetKvStore_loop_success; eassumption |].
  rewrite Init_unfold. simpl.
  destruct (kvStoreInitCallback_ (this (snd (TryGetKvStore s)))) as [f |].
  - eexists _, [EvInvokeCallback f; EvSetInitStatus INIT_SUCCEED].
    split; [reflexivity |]. simpl. rewrite Htr, <- app_assoc.
    split; [reflexivity |]. split; reflexivity.
  - eexists _, [EvSetInitStatus INIT_SUCCEED].
    split; [reflexivity |]. simpl. rewrite Htr, <- app_assoc.
    split; [reflexivity |]. split; reflexivity.
Qed.

(** ** Registration of the callback *)

Lemma RegisterKvStoreInitCallback_unfold
    (callback : option KvStoreInitCallback) (s : Sys) :
  RegisterKvStoreInitCallback callback s =
  match kvStoreInitCallback_ (this s) with
  | Some _ => (false, s)
  | None =>
      (true, mkSys (set_kvStoreInitCallback_ callback (this s)) (world s) (trace s))
  end.
Proof.
  unfold RegisterKvStoreInitCallback. run.
  destruct (kvStoreInitCallback_ (this s)); reflexivity.
Qed.

(** After any run of registrations the slot holds what it held before, or,
    if it was empty, the first callback of the run that is not empty. *)
Lemma register_all_slot (callbacks : list (option KvStoreInitCallback)) :
  forall s : Sys,
    kvStoreInitCallback_ (this (snd (register_all callbacks s))) =
    match kvStoreInitCallback_ (this s) with
    | Some cb => Some cb
    | None => head (omap id callbacks)
    end.
Proof.
  induction callbacks as [| callback rest IH]; intros s; simpl.
  - destruct (kvStoreInitCallback_ (this s)); reflexivity.
  - unfold bind. rewrite RegisterKvStoreInitCallback_unfold.
    destruct (kvStoreInitCallback_ (this s)) as [cb |] eqn:Hslot.
    + specialize (IH s). rewrite Hslot in IH.
      destruct (register_all rest s) as [bs s']. exact IH.
    + set (s1 := mkSys _ _ _).
      specialize (IH s1).
      destruct (register_all rest s1) as [bs s']. simpl in *.
      rewrite IH. destruct callback as [cb |]; reflexivity.
Qed.

(** C4.  With the slot empty, [RegisterKvStoreInitCallback] returns [true]
    and the slot holds the argument; with a callback in the slot it returns
    [false] and changes nothing.  So whatever is registered afterwards, a
    callback that is in the slot stays there: one callback at most is ever
    set. *)
Theorem RegisterKvStoreInitCallback_at_most_once
    (callback : option KvStoreInitCallback) (s : Sys) :
  (kvStoreInitCallback_ (this s) = None ->
   fst (RegisterKvStoreInitCallback callback s) = true /\
   kvStoreInitCallback_ (this (snd (RegisterKvStoreInitCallback callback s)))
     = callback) /\
  (forall cb : KvStoreInitCallback,
     kvStoreInitCallback_ (this s) = Some cb ->
     RegisterKvStoreInitCallback callback s = (false, s)) /\
  (forall (cb : KvStoreInitCallback) (later : list (option KvStoreInitCallback)),
     kvStoreInitCallback_ (this s) = Some cb ->
     kvStoreInitCallback_ (this (snd (register_all later s))) = Some cb).
Proof.
  split; [| split].
  - intros Hnone. rewrite RegisterKvStoreInitCallback_unfold, Hnone.
    split; reflexivity.
  - intros cb Hsome. rewrite RegisterKvStoreInitCallback_unfold, Hsome.
    reflexivity.
  - intros cb later Hsome. rewrite register_all_slot, Hsome. reflexivity.
Qed.

(** ** Access to the store *)

(** C2, as the code has it.  With a null handle each of
    [GetDeviceProfile], [PutDeviceProfile] and [DeleteDeviceProfile] returns
    [ERR_DP_INVALID_PARAMS] at once: the state is the one it was called in,
    so the store is as it was, nothing was logged and no call to the store
    was made, and the caller's output string is untouched. *)
Theorem null_handle_fails_with_invalid_params (s : Sys) (key value : string) :
  kvStorePtr_ (this s) = None ->
  GetDeviceProfile key value s = ((ERR_DP_INVALID_PARAMS, value), s) /\
  PutDeviceProfile key value s = (ERR_DP_INVALID_PARAMS, s) /\
  DeleteDeviceProfile key s = (ERR_DP_INVALID_PARAMS, s).
Proof.
  intros Hnull.
  unfold GetDeviceProfile, PutDeviceProfile, DeleteDeviceProfile. run.
  rewrite Hnull. repeat split.
Qed.

(** C3.  With key and value lists of different lengths
    [PutDeviceProfileBatch] returns [ERR_DP_INVALID_PARAMS] in the state it
    was called in, with or without a handle and before the loop is entered:
    no [PutBatch] was made and the store is as it was. *)
Theorem PutDeviceProfileBatch_length_mismatch
    (fuel : nat) (keys values : list string) (s : Sys) :
  length keys <> length values ->
  PutDeviceProfileBatch fuel keys values s = (Returns ERR_DP_INVALID_PARAMS, s).
Proof.
  intros Hne. unfold PutDeviceProfileBatch. run.
  destruct (kvStorePtr_ (this s)) as [h |]; [| reflexivity].
  rewrite bool_decide_eq_true_2 by lia. reflexivity.
Qed.

Lemma GetDeviceProfile_unfold (key value : string) (s : Sys) :
  GetDeviceProfile key value s =
  match kvStorePtr_ (this s) with
  | None => ((ERR_DP_INVALID_PARAMS, value), s)
  | Some h =>
      let r := Get h (mkBlob key) (world s) in
      let s' := mkSys (this s) (snd r) (trace s ++ [EvGet h (mkBlob key)]) in
      if bool_decide (fst (fst r) = SUCCESS)
      then ((status_to_int32 (fst (fst r)), ToString (snd (fst r))), s')
      else ((status_to_int32 (fst (fst r)), value), s')
  end.
Proof.
  unfold GetDeviceProfile. run.
  destruct (kvStorePtr_ (this s)) as [h |]; [| reflexivity].
  destruct (Get h (mkBlob key) (world s)) as [[status v] w]. simpl.
  destruct (bool_decide (status = SUCCESS)); reflexivity.
Qed.

Lemma PutDeviceProfile_unfold (key value : string) (s : Sys) :
  PutDeviceProfile key value s =
  match kvStorePtr_ (this s) with
  | None => (ERR_DP_INVALID_PARAMS, s)
  | Some h =>
      let r := Put h (mkBlob key) (mkBlob value) (world s) in
      (status_to_int32 (fst r),
       mkSys (this s) (snd r) (trace s ++ [EvPut h (mkBlob key) (mkBlob value)]))
  end.
Proof.
  unfold PutDeviceProfile. run.
  destruct (kvStorePtr_ (this s)) as [h |]; [| reflexivity].
  destruct (Put h (mkBlob key) (mkBlob value) (world s)) as [status w].
  reflexivity.
Qed.

Lemma DeleteDeviceProfile_unfold (key : string) (s : Sys) :
  DeleteDeviceProfile key s =
  match kvStorePtr_ (this s) with
  | None => (ERR_DP_INVALID_PARAMS, s)
  | Some h =>
      let r := Delete h (mkBlob key) (world s) in
      (status_to_int32 (fst r),
       mkSys (this s) (snd r) (trace s ++ [EvDelete h (mkBlob key)]))
  end.
Proof.
  unfold DeleteDeviceProfile. run.
  destruct (kvStorePtr_ (this s)) as [h |]; [| reflexivity].
  destruct (Delete h (mkBlob key) (world s)) as [status w]. reflexivity.
Qed.

Lemma DeleteKvStore_unfold (s : Sys) :
  DeleteKvStore s =
  (tt, mkSys (this s)
             (snd (DistributedKv.DeleteKvStore (appId_ (this s))
                     (storeId_ (this s)) (world s)))
             (trace s ++ [EvDeleteKvStore])).
Proof.
  unfold DeleteKvStore. run.
  destruct (DistributedKv.DeleteKvStore _ _ _) as [status w]. reflexivity.
Qed.

(** C9.  The string [GetDeviceProfile] hands back differs from the one it
    was given only if there is a handle and the store's [Get] returned
    [SUCCESS]; it then holds the value [Get] produced.  With a null handle,
    and with any other status of [Get], the caller's string is unchanged and
    the code returned is [ERR_DP_INVALID_PARAMS], respectively that status. *)
Theorem GetDeviceProfile_output_written_on_success
    (key value : string) (s : Sys) :
  let code := fst (fst (GetDeviceProfile key value s)) in
  let out := snd (fst (GetDeviceProfile key value s)) in
  (out <> value ->
   exists h v w,
     kvStorePtr_ (this s) = Some h /\
     Get h (mkBlob key) (world s) = (SUCCESS, v, w) /\
     out = ToString v /\ code = status_to_int32 SUCCESS) /\
  (kvStorePtr_ (this s) = None ->
   out = value /\ code = ERR_DP_INVALID_PARAMS) /\
  (forall h status v w,
     kvStorePtr_ (this s) = Some h ->
     Get h (mkBlob key) (world s) = (status, v, w) ->
     code = status_to_int32 status /\
     (status <> SUCCESS -> out = value) /\
     (status = SUCCESS -> out = ToString v)).
Proof.
  intros code out. subst code out. rewrite GetDeviceProfile_unfold.
  destruct (kvStorePtr_ (this s)) as [h |].
  - destruct (Get h (mkBlob key) (world s)) as [[status v] w] eqn:Hget. simpl.
    split; [| split].
    + intros Hout. exists h, v, w.
      destruct (bool_decide_reflect (status = SUCCESS)) as [-> | Hne]; simpl in *.
      * repeat split. congruence.
      * contradiction.
    + discriminate.
    + intros h' status' v' w' Hh Hg. injection Hh as <-.
      rewrite Hget in Hg. injection Hg as <- <- <-.
      destruct (bool_decide_reflect (status = SUCCESS)) as [-> | Hne]; simpl.
      * repeat split. intros Hne. contradiction.
      * repeat split. intros Heq. contradiction.
  - simpl. split; [| split].
    + intros Hout. contradiction.
    + intros _. split; reflexivity.
    + discriminate.
Qed.

(** C10.  [DeleteKvStore] asks the manager to delete the store and returns
    nothing: the status of the manager reaches neither the caller nor the
    object, whose fields, the handle and the initialisation status among
    them, are what they were.  A handle that was there is still there, so
    the accessors called next do not fail on the null test: each makes its
    call on the store through that handle and returns what the store
    answers. *)
Theorem DeleteKvStore_keeps_handle_and_status (s : Sys) :
  let s' := snd (DeleteKvStore s) in
  fst (DeleteKvStore s) = tt /\
  this s' = this s /\
  kvStorePtr_ (this s') = kvStorePtr_ (this s) /\
  initStatus_ (this s') = initStatus_ (this s) /\
  world s' = snd (DistributedKv.DeleteKvStore (appId_ (this s))
                    (storeId_ (this s)) (world s)) /\
  trace s' = trace s ++ [EvDeleteKvStore] /\
  (forall (h : SingleKvStore) (key value out : string),
     kvStorePtr_ (this s) = Some h ->
     kvStorePtr_ (this s') = Some h /\
     fst (fst (GetDeviceProfile key out s')) =
       status_to_int32 (fst (fst (Get h (mkBlob key) (world s')))) /\
     trace (snd (GetDeviceProfile key out s')) =
       trace s' ++ [EvGet h (mkBlob key)] /\
     fst (PutDeviceProfile key value s') =
       status_to_int32 (fst (Put h (mkBlob key) (mkBlob value) (world s'))) /\
     trace (snd (PutDeviceProfile key value s')) =
       trace s' ++ [EvPut h (mkBlob key) (mkBlob value)] /\
     fst (DeleteDeviceProfile key s') =
       status_to_int32 (fst (Delete h (mkBlob key) (world s'))) /\
     trace (snd (DeleteDeviceProfile key s')) =
       trace s' ++ [EvDelete h (mkBlob key)]).
Proof.
  intros s'. subst s'. rewrite DeleteKvStore_unfold. simpl.
  repeat (split; [reflexivity |]).
  intros h key value out Hh.
  rewrite GetDeviceProfile_unfold, PutDeviceProfile_unfold,
    DeleteDeviceProfile_unfold.
  simpl. rewrite Hh. simpl.
  split; [reflexivity |].
  destruct (bool_decide _); simpl; repeat split.
Qed.

(** ** The batch write *)

Lemma entries_in_order_length (keys values : list string) :
  length keys = length values ->
  length (entries_in_order keys values) = length keys.
Proof.
  intros Hlen. unfold entries_in_order. rewrite length_zip_with. lia.
Qed.

Lemma entries_in_order_lookup (keys values : list string) (i : nat) (k v : string) :
  keys !! i = Some k -> values !! i = Some v ->
  entries_in_order keys values !! i = Some (mkEntry (mkBlob k) (mkBlob v)).
Proof.
  intros Hk Hv. unfold entries_in_order.
  rewrite lookup_zip_with, Hk. simpl. rewrite Hv. reflexivity.
Qed.

(** The loop, run from index [i] with enough fuel on lists whose size the
    index can hold, appends the entries of the rest of the lists. *)
Lemma build_entries_returns (keys values : list string) (fuel : nat) :
  forall (i : nat) (entries : list Entry),
    length keys = length values ->
    (Z.of_nat (length keys) < 2 ^ 32)%Z ->
    i <= length keys ->
    length keys - i < fuel ->
    build_entries fuel keys values (Z.of_nat (length keys)) (Z.of_nat i) entries =
    Returns (entries ++ entries_in_order (drop i keys) (drop i values)).
Proof.
  induction fuel as [| fuel IH]; intros i entries Hlen Hsize Hi Hfuel; [lia |].
  simpl. destruct (Z.ltb_spec (Z.of_nat i) (Z.of_nat (length keys))) as [Hlt | Hge].
  - rewrite Nat2Z.id.
    destruct (lookup_lt_is_Some_2 keys i ltac:(lia)) as [k Hk].
    destruct (lookup_lt_is_Some_2 values i ltac:(lia)) as [v Hv].
    rewrite Hk, Hv.
    rewrite uint32_wrap_in_range by lia.
    replace (Z.of_nat i + 1)%Z with (Z.of_nat (S i)) by lia.
    rewrite IH by (try assumption; lia).
    rewrite (drop_S keys k i Hk), (drop_S values v i Hv).
    unfold entries_in_order. simpl. rewrite <- app_assoc. reflexivity.
  - rewrite (drop_ge keys i) by lia. unfold entries_in_order. simpl.
    rewrite app_nil_r. reflexivity.
Qed.

(** On lists of [2^32] elements or more the index wraps to [0] before it
    reaches the size: the loop condition holds at every test. *)
Lemma build_entries_out_of_fuel (keys values : list string) (fuel : nat) :
  forall (i : Z) (entries : list Entry),
    length keys = length values ->
    (2 ^ 32 <= Z.of_nat (length keys))%Z ->
    (0 <= i < 2 ^ 32)%Z ->
    build_entries fuel keys values (Z.of_nat (length keys)) i entries = OutOfFuel.
Proof.
  induction fuel as [| fuel IH]; intros i entries Hlen Hsize Hi; [reflexivity |].
  cbn [build_entries].
  destruct (Z.ltb_spec i (Z.of_nat (length keys))) as [Hlt | Hge]; [| lia].
  destruct (lookup_lt_is_Some_2 keys (Z.to_nat i) ltac:(lia)) as [k Hk].
  destruct (lookup_lt_is_Some_2 values (Z.to_nat i) ltac:(lia)) as [v Hv].
  rewrite Hk, Hv.
  apply IH; [assumption | assumption | apply uint32_wrap_bound].
Qed.

(** The unchecked accesses of the loop stay inside the vectors. *)
Lemma build_entries_in_range (keys values : list string) (fuel : nat) :
  forall (i : Z) (entries : list Entry),
    length keys = length values ->
    (0 <= i)%Z ->
    build_entries fuel keys values (Z.of_nat (length keys)) i entries <> OutOfRange.
Proof.
  induction fuel as [| fuel IH]; intros i entries Hlen Hi; [discriminate |].
  cbn [build_entries].
  destruct (Z.ltb_spec i (Z.of_nat (length keys))) as [Hlt | Hge]; [| discriminate].
  destruct (lookup_lt_is_Some_2 keys (Z.to_nat i) ltac:(lia)) as [k Hk].
  destruct (lookup_lt_is_Some_2 values (Z.to_nat i) ltac:(lia)) as [v Hv].
  rewrite Hk, Hv.
  apply IH; [assumption | apply uint32_wrap_bound].
Qed.

Lemma PutDeviceProfileBatch_unfold
    (fuel : nat) (keys values : list string) (s : Sys) (h : SingleKvStore) :
  kvStorePtr_ (this s) = Some h ->
  length keys = length values ->
  PutDeviceProfileBatch fuel keys values s =
  match build_entries fuel keys values (Z.of_nat (length keys)) 0 [] with
  | Returns entries =>
      (Returns (status_to_int32 (fst (PutBatch h entries (world s)))),
       mkSys (this s) (snd (PutBatch h entries (world s)))
             (trace s ++ [EvPutBatch h entries]))
  | OutOfFuel => (OutOfFuel, s)
  | OutOfRange => (OutOfRange, s)
  end.
Proof.
  intros Hh Hlen. unfold PutDeviceProfileBatch. run. rewrite Hh.
  rewrite bool_decide_eq_false_2 by lia.
  destruct (build_entries _ _ _ _ _ _) as [entries | |]; try reflexivity.
  destruct (PutBatch h entries (world s)) as [status w]. reflexivity.
Qed.

(** The batch write on lists whose size the index of the loop can hold.
    For key and value lists of one length below [2^32], a handle and fuel for
    the loop, [PutDeviceProfileBatch] makes one call of [PutBatch], with a
    list of entries as long as the lists whose entry [i] has the key
    [keys[i]] and the value [values[i]], and returns the status of that
    call. *)
Theorem PutDeviceProfileBatch_entries_in_order
    (fuel : nat) (keys values : list string) (s : Sys) (h : SingleKvStore) :
  kvStorePtr_ (this s) = Some h ->
  length keys = length values ->
  (Z.of_nat (length keys) < 2 ^ 32)%Z ->
  length keys < fuel ->
  exists entries : list Entry,
    length entries = length keys /\
    (forall (i : nat) (k v : string),
       keys !! i = Some k -> values !! i = Some v ->
       entries !! i = Some (mkEntry (mkBlob k) (mkBlob v))) /\
    PutDeviceProfileBatch fuel keys values s =
    (Returns (status_to_int32 (fst (PutBatch h entries (world s)))),
     mkSys (this s) (snd (PutBatch h entries (world s)))
           (trace s ++ [EvPutBatch h entries])).
Proof.
  intros Hh Hlen Hsize Hfuel.
  exists (entries_in_order keys values).
  split; [apply entries_in_order_length; assumption |].
  split; [intros i k v; apply entries_in_order_lookup |].
  rewrite (PutDeviceProfileBatch_unfold fuel keys values s h Hh Hlen).
  pose proof (build_entries_returns keys values fuel 0 []
                Hlen Hsize ltac:(lia) ltac:(lia)) as Hloop.
  change (Z.of_nat 0) with 0%Z in Hloop. rewrite Hloop. reflexivity.
Qed.

End Facts.

(** ** The class over the map store *)

Import MapStore.

Example Init_gives_up_after_ten_attempts :
  fst (TryGetKvStore (fresh 10)) = false /\
  attempts (trace (snd (TryGetKvStore (fresh 10)))) = 10 /\
  slept (trace (snd (TryGetKvStore (fresh 10)))) = 5000%Z /\
  kvStorePtr_ (this (snd (Init (fresh 10)))) = None /\
  initStatus_ (this (snd (TryGetKvStore (fresh 10)))) = INIT_FAILED /\
  initStatus_ (this (snd (Init (fresh 10)))) = INIT_SUCCEED.
Proof. repeat split; reflexivity. Qed.

Example Init_after_three_outages :
  trace (snd (Init (fresh 3))) =
  [EvGetSingleKvStore; EvSleep 500; EvGetSingleKvStore; EvSleep 500;
   EvGetSingleKvStore; EvSleep 500; EvGetSingleKvStore;
   EvSetInitStatus INIT_SUCCEED].
Proof. reflexivity. Qed.

Lemma Init_status_always_succeed_witness :
  fst (TryGetKvStore (fresh 10)) = false /\
  fst (GetInitStatus (snd (Init (fresh 10)))) = INIT_SUCCEED /\
  initStatus_ (this (snd (TryGetKvStore (fresh 10)))) = INIT_FAILED.
Proof.
  assert (Hfail : fst (TryGetKvStore (fresh 10)) = false) by reflexivity.
  destruct (Init_status_always_succeed (fresh 10)) as [Hsucceed Hmark].
  destruct (Hmark Hfail) as (_ & Hfailed & _).
  exact (conj Hfail (conj Hsucceed Hfailed)).
Defined.

(** The object with the callback [cb] registered, before initialisation. *)
Lemma Init_callback_before_status_witness :
  let s := snd (RegisterKvStoreInitCallback
                  (Some ("restored"%string, "1"%string)) (fresh 2)) in
  kvStoreInitCallback_ (this s) = Some ("restored"%string, "1"%string) /\
  trace (snd (Init s)) =
    trace (snd (TryGetKvStore s)) ++
    [EvInvokeCallback ("restored"%string, "1"%string);
     EvSetInitStatus INIT_SUCCEED] /\
  initStatus_ (this (snd (TryGetKvStore s))) <> INIT_SUCCEED.
Proof.
  intros s.
  assert (Hcb : kvStoreInitCallback_ (this s) = Some ("restored"%string, "1"%string))
    by reflexivity.
  destruct (Init_callback_before_status s _ Hcb)
    as (_ & Htrace & _ & Hnot & _).
  refine (conj Hcb (conj Htrace (Hnot _))). discriminate.
Defined.

Lemma RegisterKvStoreInitCallback_at_most_once_witness :
  let first : option KvStoreInitCallback := Some ("a"%string, "1"%string) in
  let second : option KvStoreInitCallback := Some ("b"%string, "2"%string) in
  let s1 := snd (RegisterKvStoreInitCallback first (fresh 0)) in
  kvStoreInitCallback_ (this (fresh 0)) = None /\
  fst (RegisterKvStoreInitCallback first (fresh 0)) = true /\
  kvStoreInitCallback_ (this s1) = first /\
  RegisterKvStoreInitCallback second s1 = (false, s1).
Proof.
  intros first second s1.
  assert (Hnone : kvStoreInitCallback_ (this (fresh 0)) = None) by reflexivity.
  destruct (RegisterKvStoreInitCallback_at_most_once first (fresh 0))
    as (Hfirst & _ & _).
  destruct (RegisterKvStoreInitCallback_at_most_once second s1)
    as (_ & Hsecond & _).
  destruct (Hfirst Hnone) as [Htrue Hslot].
  exact (conj Hnone (conj Htrue (conj Hslot (Hsecond _ Hslot)))).
Defined.

Lemma null_handle_fails_with_invalid_params_witness :
  kvStorePtr_ (this (fresh 0)) = None /\
  GetDeviceProfile "k" "old" (fresh 0) = ((ERR_DP_INVALID_PARAMS, "old"%string), fresh 0) /\
  PutDeviceProfile "k" "v" (fresh 0) = (ERR_DP_INVALID_PARAMS, fresh 0) /\
  DeleteDeviceProfile "k" (fresh 0) = (ERR_DP_INVALID_PARAMS, fresh 0).
Proof.
  assert (Hnull : kvStorePtr_ (this (fresh 0)) = None) by reflexivity.
  pose proof (null_handle_fails_with_invalid_params (fresh 0) "k" "old" Hnull)
    as (Hget & _ & Hdel).
  pose proof (null_handle_fails_with_invalid_params (fresh 0) "k" "v" Hnull)
    as (_ & Hput & _).
  exact (conj Hnull (conj Hget (conj Hput Hdel))).
Defined.

(** C2 as the claim has it: a status for the null handle that is not the
    one for invalid arguments.  The class has one code for both; what
    [GetDeviceProfile], [PutDeviceProfile] and [DeleteDeviceProfile] return
    without a handle is what [PutDeviceProfileBatch] returns for lists of
    different lengths. *)
Lemma null_handle_status_counterexample :
  ~ (exists NotInitialized InvalidArgument : Z,
       NotInitialized <> InvalidArgument /\
       fst (PutDeviceProfileBatch 0 ["k"%string] [] opened) = Returns InvalidArgument /\
       fst (fst (GetDeviceProfile "k" "" (fresh 0))) = NotInitialized /\
       fst (PutDeviceProfile "k" "v" (fresh 0)) = NotInitialized /\
       fst (DeleteDeviceProfile "k" (fresh 0)) = NotInitialized).
Proof.
  intros (ni & ia & Hne & Hbatch & Hget & _).
  assert (Hb : fst (PutDeviceProfileBatch 0 ["k"%string] [] opened) =
               Returns ERR_DP_INVALID_PARAMS) by reflexivity.
  assert (Hg : fst (fst (GetDeviceProfile "k" "" (fresh 0))) =
               ERR_DP_INVALID_PARAMS) by reflexivity.
  rewrite Hb in Hbatch. rewrite Hg in Hget. congruence.
Qed.

Lemma PutDeviceProfileBatch_length_mismatch_witness :
  length ["k1"%string; "k2"%string] <> length ["v1"%string] /\
  PutDeviceProfileBatch 5 ["k1"%string; "k2"%string] ["v1"%string] opened =
    (Returns ERR_DP_INVALID_PARAMS, opened).
Proof.
  assert (Hne : length ["k1"%string; "k2"%string] <> length ["v1"%string])
    by discriminate.
  exact (conj Hne (PutDeviceProfileBatch_length_mismatch 5 _ _ opened Hne)).
Defined.

Lemma GetDeviceProfile_output_written_on_success_witness :
  let s := snd (PutDeviceProfile "k" "v" opened) in
  snd (fst (GetDeviceProfile "k" "old" s)) <> "old"%string /\
  fst (fst (GetDeviceProfile "k" "old" s)) = status_to_int32 SUCCESS /\
  snd (fst (GetDeviceProfile "absent" "old" s)) = "old"%string.
Proof.
  intros s.
  assert (Hout : snd (fst (GetDeviceProfile "k" "old" s)) <> "old"%string)
    by (rewrite GetDeviceProfile_unfold; discriminate).
  destruct (GetDeviceProfile_output_written_on_success "k" "old" s)
    as (Hwritten & _ & _).
  destruct (Hwritten Hout) as (h & v & w & _ & _ & _ & Hcode).
  destruct (GetDeviceProfile_output_written_on_success "absent" "old" s)
    as (_ & _ & Hkept).
  destruct (Hkept tt KEY_NOT_FOUND (mkBlob EmptyString) (world s) eq_refl eq_refl)
    as (_ & Hsame & _).
  refine (conj Hout (conj Hcode (Hsame _))). discriminate.
Defined.

Lemma DeleteKvStore_keeps_handle_and_status_witness :
  let s := snd (PutDeviceProfile "k" "v" opened) in
  let s' := snd (DeleteKvStore s) in
  kvStorePtr_ (this s) = Some tt /\
  kvStorePtr_ (this s') = Some tt /\
  initStatus_ (this s') = initStatus_ (this s) /\
  trace (snd (GetDeviceProfile "k" "" s')) = trace s' ++ [EvGet tt (mkBlob "k")].
Proof.
  intros s s'.
  assert (Hh : kvStorePtr_ (this s) = Some tt) by reflexivity.
  destruct (DeleteKvStore_keeps_handle_and_status s)
    as (_ & _ & _ & Hinit & _ & _ & Hnext).
  destruct (Hnext tt "k"%string "v"%string ""%string Hh) as (Hh' & _ & Hget & _).
  exact (conj Hh (conj Hh' (conj Hinit Hget))).
Defined.

Lemma PutDeviceProfileBatch_entries_in_order_witness :
  kvStorePtr_ (this opened) = Some tt /\
  length ["a"%string; "b"%string] = length ["x"%string; "y"%string] /\
  (Z.of_nat (length ["a"%string; "b"%string]) < 2 ^ 32)%Z /\
  length ["a"%string; "b"%string] < 3 /\
  exists entries : list Entry,
    entries !! 0 = Some (mkEntry (mkBlob "a") (mkBlob "x")) /\
    entries !! 1 = Some (mkEntry (mkBlob "b") (mkBlob "y")) /\
    length entries = 2 /\
    trace (snd (PutDeviceProfileBatch 3 ["a"%string; "b"%string]
                  ["x"%string; "y"%string] opened)) =
    [EvPutBatch tt entries].
Proof.
  assert (Hh : kvStorePtr_ (this opened) = Some tt) by reflexivity.
  assert (Hlen : length ["a"%string; "b"%string] = length ["x"%string; "y"%string])
    by reflexivity.
  assert (Hsize : (Z.of_nat (length ["a"%string; "b"%string]) < 2 ^ 32)%Z)
    by reflexivity.
  assert (Hfuel : length ["a"%string; "b"%string] < 3) by (simpl; lia).
  destruct (PutDeviceProfileBatch_entries_in_order 3 _ _ opened tt
              Hh Hlen Hsize Hfuel) as (entries & Hl & Hlook & Hrun).
  refine (conj Hh (conj Hlen (conj Hsize (conj Hfuel _)))).
  exists entries.
  split; [apply Hlook; reflexivity |].
  split; [apply Hlook; reflexivity |].
  split; [exact Hl |].
  rewrite Hrun. reflexivity.
Defined.


(** ** Reading back what was written *)

Lemma map_Get_after_insert (k v out : string) (s : Sys) :
  kvStorePtr_ (this s) = Some tt ->
  data (world s) !! k = Some v ->
  fst (GetDeviceProfile k out s) = (status_to_int32 SUCCESS, v).
Proof.
  intros Hh Hk. rewrite GetDeviceProfile_unfold, Hh. simpl.
  unfold map_Get. simpl. rewrite Hk. reflexivity.
Qed.

(** C8, as the map store has it.  With a handle, [PutDeviceProfile k v]
    succeeds and a [GetDeviceProfile k] right after it succeeds with [v].
    After [PutDeviceProfileBatch [k1; k2] [v1; v2]], which succeeds,
    [GetDeviceProfile k2] gives [v2], and [GetDeviceProfile k1] gives [v1]
    when [k1] and [k2] are two keys. *)
Theorem put_then_get_returns_value
    (s : Sys) (k v k1 k2 v1 v2 out : string) (fuel : nat) :
  kvStorePtr_ (this s) = Some tt ->
  (fst (PutDeviceProfile k v s) = status_to_int32 SUCCESS /\
   fst (GetDeviceProfile k out (snd (PutDeviceProfile k v s))) =
     (status_to_int32 SUCCESS, v)) /\
  (2 < fuel ->
   let batch := PutDeviceProfileBatch fuel [k1; k2] [v1; v2] s in
   fst batch = Returns (status_to_int32 SUCCESS) /\
   fst (GetDeviceProfile k2 out (snd batch)) = (status_to_int32 SUCCESS, v2) /\
   (k1 <> k2 ->
    fst (GetDeviceProfile k1 out (snd batch)) = (status_to_int32 SUCCESS, v1))).
Proof.
  intros Hh. split.
  - rewrite PutDeviceProfile_unfold, Hh. simpl.
    split; [reflexivity |].
    apply (map_Get_after_insert k v out); [exact Hh |].
    simpl. apply lookup_insert_eq.
  - intros Hfuel batch. subst batch.
    rewrite (PutDeviceProfileBatch_unfold fuel [k1; k2] [v1; v2] s tt Hh eq_refl).
    pose proof (build_entries_returns [k1; k2] [v1; v2] fuel 0 [] eq_refl
                  ltac:(reflexivity) ltac:(simpl; lia) ltac:(simpl; lia)) as Hloop.
    change (Z.of_nat 0) with 0%Z in Hloop. rewrite Hloop. simpl.
    split; [reflexivity |].
    split.
    + apply (map_Get_after_insert k2 v2 out); [exact Hh |].
      simpl. apply lookup_insert_eq.
    + intros Hne.
      apply (map_Get_after_insert k1 v1 out); [exact Hh |].
      simpl. rewrite lookup_insert_ne by congruence. apply lookup_insert_eq.
Qed.

Lemma put_then_get_returns_value_witness :
  kvStorePtr_ (this opened) = Some tt /\
  fst (GetDeviceProfile "k" "" (snd (PutDeviceProfile "k" "v" opened))) =
    (0%Z, "v"%string) /\
  fst (GetDeviceProfile "a" ""
         (snd (PutDeviceProfileBatch 3 ["a"%string; "b"%string]
                 ["x"%string; "y"%string] opened))) = (0%Z, "x"%string) /\
  fst (GetDeviceProfile "b" ""
         (snd (PutDeviceProfileBatch 3 ["a"%string; "b"%string]
                 ["x"%string; "y"%string] opened))) = (0%Z, "y"%string).
Proof.
  assert (Hh : kvStorePtr_ (this opened) = Some tt) by reflexivity.
  destruct (put_then_get_returns_value opened "k" "v" "a" "b" "x" "y" "" 3 Hh)
    as ((_ & Hget) & Hbatch).
  destruct (Hbatch ltac:(lia)) as (_ & Hb & Ha).
  refine (conj Hh (conj Hget (conj (Ha _) Hb))). discriminate.
Defined.

(** C8 as the claim has it, for every [k1] and [k2]: written in one batch
    under one key, of the two values the later one is read back. *)
Lemma putBatch_same_key_counterexample :
  let batch := PutDeviceProfileBatch 3 ["a"%string; "a"%string]
                 ["x"%string; "y"%string] opened in
  fst batch = Returns 0%Z /\
  fst (GetDeviceProfile "a" "" (snd batch)) = (0%Z, "y"%string) /\
  ~ (snd (fst (GetDeviceProfile "a" "" (snd batch))) = "x"%string /\
     snd (fst (GetDeviceProfile "a" "" (snd batch))) = "y"%string).
Proof.
  intros batch.
  assert (Hget : fst (GetDeviceProfile "a" "" (snd batch)) = (0%Z, "y"%string))
    by reflexivity.
  split; [reflexivity |]. split; [exact Hget |].
  rewrite Hget. intros [Hx _]. discriminate Hx.
Qed.

(** * Further properties of the class *)

Section Further.

Context `{KV : Service} `{CFG : Config} `{RUN : !CallbackRunner}.

Ltac run := unfold bind, ret, field, assign, emit, call, run_callback; simpl.

(** ** What the accessors leave alone *)

Lemma PutDeviceProfileBatch_cases (fuel : nat) (keys values : list string) (s : Sys) :
  PutDeviceProfileBatch fuel keys values s =
  match kvStorePtr_ (this s) with
  | None => (Returns ERR_DP_INVALID_PARAMS, s)
  | Some h =>
      if bool_decide (Z.of_nat (length keys) <> Z.of_nat (length values))
      then (Returns ERR_DP_INVALID_PARAMS, s)
      else
        match build_entries fuel keys values (Z.of_nat (length keys)) 0 [] with
        | Returns entries =>
            (Returns (status_to_int32 (fst (PutBatch h entries (world s)))),
             mkSys (this s) (snd (PutBatch h entries (world s)))
                   (trace s ++ [EvPutBatch h entries]))
        | OutOfFuel => (OutOfFuel, s)
        | OutOfRange => (OutOfRange, s)
        end
  end.
Proof.
  unfold PutDeviceProfileBatch. run.
  destruct (kvStorePtr_ (this s)) as [h |]; [| reflexivity].
  destruct (bool_decide _); [reflexivity |].
  destruct (build_entries _ _ _ _ _ _) as [entries | |]; try reflexivity.
  destruct (PutBatch h entries (world s)) as [status w]. reflexivity.
Qed.

(** X1.  No accessor writes a field of the object: after
    [GetDeviceProfile], [PutDeviceProfile], [DeleteDeviceProfile],
    [PutDeviceProfileBatch] (with any fuel) and [DeleteKvStore], whatever the
    store answered, the handle, the callback, the initialisation status and
    the options are what they were, and [GetInitStatus] changes nothing at
    all. *)
Theorem accessors_keep_object
    (s : Sys) (key value out : string) (fuel : nat) (keys values : list string) :
  this (snd (GetDeviceProfile key out s)) = this s /\
  this (snd (PutDeviceProfile key value s)) = this s /\
  this (snd (DeleteDeviceProfile key s)) = this s /\
  this (snd (PutDeviceProfileBatch fuel keys values s)) = this s /\
  this (snd (DeleteKvStore s)) = this s /\
  GetInitStatus s = (initStatus_ (this s), s).
Proof.
  rewrite GetDeviceProfile_unfold, PutDeviceProfile_unfold,
    DeleteDeviceProfile_unfold, PutDeviceProfileBatch_cases, DeleteKvStore_unfold.
  repeat split.
  - destruct (kvStorePtr_ (this s)); [| reflexivity].
    simpl. destruct (bool_decide _); reflexivity.
  - destruct (kvStorePtr_ (this s)); reflexivity.
  - destruct (kvStorePtr_ (this s)); reflexivity.
  - destruct (kvStorePtr_ (this s)); [| reflexivity].
    destruct (bool_decide _); [reflexivity |].
    destruct (build_entries _ _ _ _ _ _); reflexivity.
Qed.

(** ** The batch write, in full *)

Lemma PutDeviceProfileBatch_never_out_of_range_aux
    (fuel : nat) (keys values : list string) :
  length keys = length values ->
  build_entries fuel keys values (Z.of_nat (length keys)) 0 [] <> OutOfRange.
Proof. intros Hlen. apply build_entries_in_range; [assumption | lia]. Qed.

(** X2.  When [PutDeviceProfileBatch] reaches the store.  It leaves the log
    as it was exactly when the handle is null, the lists differ in length or
    the loop is not over; with a null handle or lists of different lengths
    the code is [ERR_DP_INVALID_PARAMS] and the state the one it was called
    in, before the lists are looked at and with no fuel at all.  In every
    other run it has made one [PutBatch] and nothing else. *)
Theorem PutDeviceProfileBatch_store_reached
    (fuel : nat) (keys values : list string) (s : Sys) :
  let r := PutDeviceProfileBatch fuel keys values s in
  (trace (snd r) = trace s <->
   (kvStorePtr_ (this s) = None \/ length keys <> length values \/
    fst r = OutOfFuel)) /\
  (kvStorePtr_ (this s) = None \/ length keys <> length values ->
   r = (Returns ERR_DP_INVALID_PARAMS, s)) /\
  (trace (snd r) <> trace s ->
   exists h entries,
     kvStorePtr_ (this s) = Some h /\
     trace (snd r) = trace s ++ [EvPutBatch h entries] /\
     world (snd r) = snd (PutBatch h entries (world s)) /\
     fst r = Returns (status_to_int32 (fst (PutBatch h entries (world s))))).
Proof.
  intros r. subst r. rewrite PutDeviceProfileBatch_cases.
  pose proof (PutDeviceProfileBatch_never_out_of_range_aux fuel keys values) as Hin.
  destruct (kvStorePtr_ (this s)) as [h |].
  2:{ split; [split; [left; reflexivity | reflexivity] |].
      split; [reflexivity | intros Hne; contradiction]. }
  destruct (bool_decide_reflect (Z.of_nat (length keys) <> Z.of_nat (length values)))
    as [Hne | Heq].
  { split; [split; [right; left; lia | reflexivity] |].
    split; [reflexivity | intros Hc; contradiction]. }
  assert (Hlen : length keys = length values) by lia.
  specialize (Hin Hlen).
  destruct (build_entries _ _ _ _ _ _) as [entries | |]; simpl.
  - split; [split |].
    + intros Htr. exfalso.
      apply (f_equal length) in Htr. rewrite length_app in Htr. simpl in Htr. lia.
    + intros [Hnull | [Hne | Hout]]; [discriminate | contradiction | discriminate].
    + split; [intros [Hnull | Hne]; [discriminate | contradiction] |].
      intros _. exists h, entries. repeat split.
  - split; [split; [right; right; reflexivity | reflexivity] |].
    split; [intros [Hnull | Hne]; [discriminate | contradiction] |].
    intros Hc. contradiction.
  - contradiction.
Qed.

(** X3.  The unchecked accesses [keys[i]] and [values[i]] of the loop are
    never outside the vectors: whatever the lists, the handle and the fuel,
    [PutDeviceProfileBatch] does not end in [OutOfRange]. *)
Theorem PutDeviceProfileBatch_never_out_of_range
    (fuel : nat) (keys values : list string) (s : Sys) :
  fst (PutDeviceProfileBatch fuel keys values s) <> OutOfRange.
Proof.
  rewrite PutDeviceProfileBatch_cases.
  destruct (kvStorePtr_ (this s)) as [h |]; [| discriminate].
  destruct (bool_decide_reflect (Z.of_nat (length keys) <> Z.of_nat (length values)))
    as [Hne | Heq]; [discriminate |].
  assert (Hlen : length keys = length values) by lia.
  pose proof (build_entries_in_range keys values fuel 0 [] Hlen ltac:(lia)) as Hin.
  destruct (build_entries _ _ _ _ _ _); simpl; congruence.
Qed.

(** X4.  When [PutDeviceProfileBatch] returns.  There is fuel with which it
    returns a code exactly when the handle is null, or the lists differ in
    length, or they have fewer than [2^32] elements; and then every amount of
    fuel above the length of [keys] will do. *)
Theorem PutDeviceProfileBatch_returns_iff
    (keys values : list string) (s : Sys) :
  ((exists (fuel : nat) (code : Z) (s' : Sys),
      PutDeviceProfileBatch fuel keys values s = (Returns code, s')) <->
   (kvStorePtr_ (this s) = None \/ length keys <> length values \/
    (Z.of_nat (length keys) < 2 ^ 32)%Z)) /\
  ((kvStorePtr_ (this s) = None \/ length keys <> length values \/
    (Z.of_nat (length keys) < 2 ^ 32)%Z) ->
   forall fuel : nat, length keys < fuel ->
     exists (code : Z) (s' : Sys),
       PutDeviceProfileBatch fuel keys values s = (Returns code, s')).
Proof.
  assert (Hsuff :
    (kvStorePtr_ (this s) = None \/ length keys <> length values \/
     (Z.of_nat (length keys) < 2 ^ 32)%Z) ->
    forall fuel : nat, length keys < fuel ->
      exists (code : Z) (s' : Sys),
        PutDeviceProfileBatch fuel keys values s = (Returns code, s')).
  { intros Hcases fuel Hfuel. rewrite PutDeviceProfileBatch_cases.
    destruct (kvStorePtr_ (this s)) as [h |]; [| eauto].
    destruct (bool_decide_reflect
                (Z.of_nat (length keys) <> Z.of_nat (length values)))
      as [Hne | Heq]; [eauto |].
    assert (Hlen : length keys = length values) by lia.
    destruct Hcases as [Hnull | [Hne | Hsize]]; [discriminate | contradiction |].
    pose proof (build_entries_returns keys values fuel 0 []
                  Hlen Hsize ltac:(lia) ltac:(lia)) as Hloop.
    change (Z.of_nat 0) with 0%Z in Hloop. rewrite Hloop. eauto. }
  split; [| exact Hsuff].
  split.
  - intros (fuel & code & s' & Hrun).
    rewrite PutDeviceProfileBatch_cases in Hrun.
    destruct (kvStorePtr_ (this s)) as [h |]; [| left; reflexivity].
    right.
    destruct (decide (length keys = length values)) as [Hlen | Hne];
      [| left; exact Hne].
    right.
    destruct (Z_lt_dec (Z.of_nat (length keys)) (2 ^ 32)) as [Hlt | Hge];
      [exact Hlt |].
    rewrite bool_decide_eq_false_2 in Hrun by lia.
    rewrite build_entries_out_of_fuel in Hrun by (try assumption; lia).
    discriminate Hrun.
  - intros Hcases.
    destruct (Hsuff Hcases (S (length keys)) ltac:(lia)) as (code & s' & Hrun).
    eauto.
Qed.

Lemma entries_in_order_keys (keys : list string) :
  forall values : list string,
    length keys = length values ->
    map (fun e => ToString (key e)) (entries_in_order keys values) = keys /\
    map (fun e => ToString (value e)) (entries_in_order keys values) = values.
Proof.
  unfold entries_in_order.
  induction keys as [| k keys IH]; intros [| v values] Hlen;
    try discriminate; simpl; [split; reflexivity |].
  destruct (IH values ltac:(simpl in Hlen; lia)) as [Hk Hv].
  rewrite Hk, Hv. split; reflexivity.
Qed.

(** X5.  What the store is given reads back as what the caller gave: for
    lists of one length below [2^32], a handle and fuel for the loop, the one
    thing [PutDeviceProfileBatch] does is a [PutBatch] of entries whose keys,
    turned into strings again, are the list [keys] and whose values are the
    list [values]. *)
Theorem PutDeviceProfileBatch_entries_read_back
    (fuel : nat) (keys values : list string) (s : Sys) (h : SingleKvStore) :
  kvStorePtr_ (this s) = Some h ->
  length keys = length values ->
  (Z.of_nat (length keys) < 2 ^ 32)%Z ->
  length keys < fuel ->
  exists entries : list Entry,
    trace (snd (PutDeviceProfileBatch fuel keys values s)) =
      trace s ++ [EvPutBatch h entries] /\
    map (fun e => ToString (key e)) entries = keys /\
    map (fun e => ToString (value e)) entries = values.
Proof.
  intros Hh Hlen Hsize Hfuel.
  exists (entries_in_order keys values).
  destruct (entries_in_order_keys keys values Hlen) as [Hk Hv].
  split; [| split; assumption].
  rewrite PutDeviceProfileBatch_cases, Hh.
  rewrite bool_decide_eq_false_2 by lia.
  pose proof (build_entries_returns keys values fuel 0 []
                Hlen Hsize ltac:(lia) ltac:(lia)) as Hloop.
  change (Z.of_nat 0) with 0%Z in Hloop. rewrite Hloop. reflexivity.
Qed.

(** ** The retries, attempt by attempt *)

Lemma TryGetKvStore_loop_first_success (n : nat) (s s' : Sys) :
  first_success n s s' ->
  forall retryTimes : Z,
    (0 <= retryTimes)%Z ->
    (retryTimes + Z.of_nat n < RETRY_TIMES_GET_KVSTORE)%Z ->
    TryGetKvStore_loop retryTimes s = (Some true, s').
Proof.
  induction 1 as [s s1 Hget Hnn | n s s1 s' status Hget Hno _ IH];
    intros retryTimes Hr Hn.
  - apply TryGetKvStore_loop_success; [lia | assumption | assumption].
  - rewrite TryGetKvStore_loop_unfold_run.
    destruct (Z_lt_dec retryTimes RETRY_TIMES_GET_KVSTORE) as [Hlt | Hge]; [| lia].
    rewrite Hget. simpl. rewrite Hno.
    unfold RETRY_TIMES_GET_KVSTORE in *.
    rewrite int32_wrap_in_range by (unfold Int.in_int32; lia).
    apply IH; lia.
Qed.

Lemma first_success_events (n : nat) (s s' : Sys) :
  first_success n s s' ->
  exists evs,
    trace s' = trace s ++ evs /\
    attempts evs = S n /\ sleeps evs = n /\
    slept evs = (500 * Z.of_nat n)%Z /\
    last evs = Some EvGetSingleKvStore /\
    same_but_ptr (this s) (this s') /\
    non_null (kvStorePtr_ (this s')) = true.
Proof.
  unfold attempts, sleeps.
  induction 1 as [s s1 Hget Hnn | n s s1 s' status Hget Hno _ IH].
  - destruct (GetKvStore_effect s) as [Hsame Htr]. rewrite Hget in Hsame, Htr.
    exists [EvGetSingleKvStore]. rewrite !count_cons, !count_nil. simpl in *.
    repeat split; try assumption; try apply Hsame; lia.
  - destruct (GetKvStore_effect s) as [Hsame Htr]. rewrite Hget in Hsame, Htr.
    destruct IH as (evs & Htr' & Hatt & Hsl & Hslept & Hlast & Hsame' & Hnn).
    simpl in *.
    exists (EvGetSingleKvStore :: EvSleep 500 :: evs).
    rewrite !count_cons. simpl.
    split; [rewrite Htr', Htr, <- !app_assoc; reflexivity |].
    split; [lia |]. split; [lia |]. split; [lia |].
    split; [destruct evs; [discriminate Hlast | exact Hlast] |].
    split; [eapply same_but_ptr_trans; eassumption | assumption].
Qed.

(** X6.  If the manager refuses [n] acquisitions and [n] is below ten,
    [TryGetKvStore] returns [true] in the state of the first acquisition
    that gave a handle: it has asked [n + 1] times, slept [n] times, [500 n]
    milliseconds in all, the last thing it did was to ask, and it has
    written nothing but the handle.  The tenth attempt still counts. *)
Theorem TryGetKvStore_first_success (n : nat) (s s' : Sys) :
  first_success n s s' ->
  n < 10 ->
  TryGetKvStore s = (true, s') /\
  initStatus_ (this s') = initStatus_ (this s) /\
  kvStoreInitCallback_ (this s') = kvStoreInitCallback_ (this s) /\
  non_null (kvStorePtr_ (this s')) = true /\
  exists evs,
    trace s' = trace s ++ evs /\
    attempts evs = S n /\ sleeps evs = n /\
    slept evs = (500 * Z.of_nat n)%Z /\
    last evs = Some EvGetSingleKvStore.
Proof.
  intros Hfirst Hn.
  destruct (first_success_events n s s' Hfirst)
    as (evs & Htr & Hatt & Hsl & Hslept & Hlast & Hsame & Hnn).
  destruct Hsame as (_ & _ & _ & Hcb & Hinit).
  split.
  { rewrite TryGetKvStore_unfold.
    rewrite (TryGetKvStore_loop_first_success n s s' Hfirst 0)
      by (unfold RETRY_TIMES_GET_KVSTORE; lia).
    reflexivity. }
  repeat (split; [assumption |]).
  exists evs. repeat split; assumption.
Qed.

(** ** [Init] and what follows it *)

Lemma Init_without_callback_unfold (s : Sys) :
  kvStoreInitCallback_ (this s) = None ->
  Init s =
  (tt, mkSys (set_initStatus_ INIT_SUCCEED (this (snd (TryGetKvStore s))))
             (world (snd (TryGetKvStore s)))
             (trace (snd (TryGetKvStore s)) ++ [EvSetInitStatus INIT_SUCCEED])).
Proof.
  intros Hnone. rewrite Init_unfold. simpl.
  destruct (TryGetKvStore_spec s) as (evs & _ & _ & _ & _ & _ & _ & Hcb & _).
  rewrite Hcb, Hnone. reflexivity.
Qed.

(** X7.  Initialisation that works.  With no callback registered and a
    manager that gives the handle at attempt [n + 1], not later than the
    tenth, [Init] ends with the status [INIT_SUCCEED] and that handle, and
    the accessors called next reach the store: [GetDeviceProfile] asks the
    store for the key and returns its status, not the code of the null
    test. *)
Theorem Init_success_then_get
    (n : nat) (s s' : Sys) (key out : string) :
  first_success n s s' ->
  n < 10 ->
  kvStoreInitCallback_ (this s) = None ->
  let s2 := snd (Init s) in
  fst (GetInitStatus s2) = INIT_SUCCEED /\
  kvStorePtr_ (this s2) = kvStorePtr_ (this s') /\
  world s2 = world s' /\
  exists h : SingleKvStore,
    kvStorePtr_ (this s2) = Some h /\
    fst (fst (GetDeviceProfile key out s2)) =
      status_to_int32 (fst (fst (Get h (mkBlob key) (world s')))) /\
    trace (snd (GetDeviceProfile key out s2)) =
      trace s' ++ [EvSetInitStatus INIT_SUCCEED; EvGet h (mkBlob key)].
Proof.
  intros Hfirst Hn Hnone s2. subst s2.
  destruct (first_success_events n s s' Hfirst) as (evs & _ & _ & _ & _ & _ & _ & Hnn).
  assert (Htry : TryGetKvStore s = (true, s')).
  { rewrite TryGetKvStore_unfold.
    rewrite (TryGetKvStore_loop_first_success n s s' Hfirst 0)
      by (unfold RETRY_TIMES_GET_KVSTORE; lia).
    reflexivity. }
  rewrite (Init_without_callback_unfold s Hnone), Htry. simpl.
  repeat (split; [reflexivity |]).
  destruct (kvStorePtr_ (this s')) as [h |] eqn:Hh; [| discriminate Hnn].
  exists h. split; [reflexivity |].
  rewrite GetDeviceProfile_unfold. simpl. rewrite Hh. simpl.
  rewrite <- app_assoc. simpl.
  destruct (bool_decide _); split; reflexivity.
Qed.

(** X8.  Initialisation that fails, seen from the caller.  With no callback
    registered, when [TryGetKvStore] returns [false], [GetInitStatus] after
    [Init] says [INIT_SUCCEED] all the same, and yet every accessor returns
    [ERR_DP_INVALID_PARAMS] without a call to the store: the handle is
    null. *)
Theorem Init_failure_then_accessors
    (s : Sys) (key value out : string) (fuel : nat) (keys values : list string) :
  fst (TryGetKvStore s) = false ->
  kvStoreInitCallback_ (this s) = None ->
  let s2 := snd (Init s) in
  fst (GetInitStatus s2) = INIT_SUCCEED /\
  kvStorePtr_ (this s2) = None /\
  GetDeviceProfile key out s2 = ((ERR_DP_INVALID_PARAMS, out), s2) /\
  PutDeviceProfile key value s2 = (ERR_DP_INVALID_PARAMS, s2) /\
  DeleteDeviceProfile key s2 = (ERR_DP_INVALID_PARAMS, s2) /\
  PutDeviceProfileBatch fuel keys values s2 = (Returns ERR_DP_INVALID_PARAMS, s2).
Proof.
  intros Hfail Hnone s2.
  assert (Hnull : kvStorePtr_ (this s2) = None).
  { subst s2. rewrite (Init_without_callback_unfold s Hnone). simpl.
    destruct (TryGetKvStore_spec s) as (evs & _ & _ & _ & _ & _ & _ & _ & Hres & _).
    rewrite Hfail in Hres.
    destruct (kvStorePtr_ (this (snd (TryGetKvStore s)))); [discriminate | reflexivity]. }
  split.
  { subst s2. rewrite (Init_without_callback_unfold s Hnone). reflexivity. }
  split; [exact Hnull |].
  rewrite GetDeviceProfile_unfold, PutDeviceProfile_unfold,
    DeleteDeviceProfile_unfold, PutDeviceProfileBatch_cases, Hnull.
  repeat split.
Qed.

Lemma Init_events (s : Sys) :
  exists evs,
    trace (snd (TryGetKvStore s)) = trace s ++ evs /\
    count is_callback evs = 0 /\ count is_store_call evs = 0 /\
    kvStoreInitCallback_ (this (snd (TryGetKvStore s))) =
      kvStoreInitCallback_ (this s).
Proof.
  destruct (TryGetKvStore_spec s)
    as (evs & Htr & _ & _ & Hcb & _ & Hstore & Hslot & _).
  exists evs. repeat split; assumption.
Qed.

(** X9.  The callback is not used up.  If the code of the callbacks leaves
    the slot alone, a callback that is registered is still registered after
    [Init], and a second [Init] invokes it a second time: over the two runs
    the log has two invocations, each followed at once by the write of
    [INIT_SUCCEED]. *)
Theorem Init_invokes_callback_every_time (s : Sys) (cb : KvStoreInitCallback) :
  (forall c d w,
     kvStoreInitCallback_ (fst (invoke c (d, w))) = kvStoreInitCallback_ d) ->
  kvStoreInitCallback_ (this s) = Some cb ->
  kvStoreInitCallback_ (this (snd (Init s))) = Some cb /\
  exists evs1 evs2,
    trace (snd (Init (snd (Init s)))) =
      trace s ++
      evs1 ++ [EvInvokeCallback cb; EvSetInitStatus INIT_SUCCEED] ++
      evs2 ++ [EvInvokeCallback cb; EvSetInitStatus INIT_SUCCEED] /\
    count is_callback evs1 = 0 /\ count is_callback evs2 = 0.
Proof.
  intros Hkeep Hcb.
  assert (Hone : forall s0 : Sys,
    kvStoreInitCallback_ (this s0) = Some cb ->
    kvStoreInitCallback_ (this (snd (Init s0))) = Some cb /\
    exists evs,
      trace (snd (Init s0)) =
        trace s0 ++ evs ++ [EvInvokeCallback cb; EvSetInitStatus INIT_SUCCEED] /\
      count is_callback evs = 0).
  { intros s0 Hs0.
    destruct (Init_events s0) as (evs & Htr & Hno & _ & Hslot).
    rewrite Init_unfold. simpl. rewrite Hslot, Hs0. simpl.
    split.
    - rewrite Hkeep. rewrite Hslot. exact Hs0.
    - exists evs. rewrite Htr, <- app_assoc. split; [reflexivity | exact Hno]. }
  destruct (Hone s Hcb) as (Hslot1 & evs1 & Htr1 & Hno1).
  destruct (Hone (snd (Init s)) Hslot1) as (_ & evs2 & Htr2 & Hno2).
  split; [exact Hslot1 |].
  exists evs1, evs2. rewrite Htr2, Htr1, <- !app_assoc.
  repeat split; assumption.
Qed.

(** X10.  What [Init] does itself.  Its events are requests to the manager,
    sleeps of 500 ms, writes of the status and, at most once, the invocation
    of the callback; it makes no [Get], [Put], [PutBatch] or [Delete] and
    does not delete the store.  The last of them is the write of
    [INIT_SUCCEED]. *)
Theorem Init_own_events (s : Sys) :
  exists evs,
    trace (snd (Init s)) = trace s ++ evs /\
    Forall is_init_event evs /\
    count is_store_call evs = 0 /\
    count is_callback evs <= 1 /\
    last evs = Some (EvSetInitStatus INIT_SUCCEED).
Proof.
  assert (Htry : exists evs,
    trace (snd (TryGetKvStore s)) = trace s ++ evs /\
    Forall is_init_event evs /\
    count is_store_call evs = 0 /\ count is_callback evs = 0).
  { rewrite TryGetKvStore_unfold.
    destruct (TryGetKvStore_loop_from_zero s) as (evs & Htr & _ & Hall & Hres).
    destruct (slept_loop_events evs Hall) as (_ & Hcb & _ & Hstore).
    assert (Hall' : Forall is_init_event evs).
    { eapply Forall_impl; [exact Hall |].
      intros e [-> | ->]; unfold is_init_event; tauto. }
    destruct (TryGetKvStore_loop 0 s) as [[b |] s1]; simpl in *.
    - exists evs. repeat split; assumption.
    - destruct (kvStorePtr_ (this s1)); simpl.
      + exists evs. repeat split; assumption.
      + exists (evs ++ [EvSetInitStatus INIT_FAILED]).
        rewrite Htr, <- app_assoc, !count_app, !count_cons, !count_nil.
        split; [reflexivity |].
        split; [| simpl; lia].
        apply Forall_app. split; [assumption |].
        constructor; [unfold is_init_event; tauto | constructor]. }
  destruct Htry as (evs & Htr & Hall & Hstore & Hcb).
  rewrite Init_unfold. simpl.
  destruct (kvStoreInitCallback_ (this (snd (TryGetKvStore s)))) as [f |]; simpl.
  - exists (evs ++ [EvInvokeCallback f; EvSetInitStatus INIT_SUCCEED]).
    rewrite Htr, <- app_assoc, !count_app, !count_cons, !count_nil.
    split; [reflexivity |].
    split.
    { apply Forall_app. split; [assumption |].
      constructor; [unfold is_init_event; eauto 10 |].
      constructor; [unfold is_init_event; tauto | constructor]. }
    split; [simpl; lia |]. split; [simpl; lia |].
    replace (evs ++ [EvInvokeCallback f; EvSetInitStatus INIT_SUCCEED])
      with ((evs ++ [EvInvokeCallback f]) ++ [EvSetInitStatus INIT_SUCCEED])
      by (rewrite <- app_assoc; reflexivity).
    apply last_snoc.
  - exists (evs ++ [EvSetInitStatus INIT_SUCCEED]).
    rewrite Htr, <- app_assoc, !count_app, !count_cons, !count_nil.
    split; [reflexivity |].
    split.
    { apply Forall_app. split; [assumption |].
      constructor; [unfold is_init_event; tauto | constructor]. }
    split; [simpl; lia |]. split; [simpl; lia |].
    apply last_snoc.
Qed.

(** ** A manager that is down *)

Lemma TryGetKvStore_loop_never_success (n : nat) :
  (forall o a i p w, fst (fst (GetSingleKvStore o a i p w)) <> SUCCESS) ->
  (forall o a i p w, snd (fst (GetSingleKvStore o a i p w)) = p) ->
  forall (retryTimes : Z) (s : Sys),
    (0 <= retryTimes <= RETRY_TIMES_GET_KVSTORE)%Z ->
    Z.to_nat (RETRY_TIMES_GET_KVSTORE - retryTimes) = n ->
    fst (TryGetKvStore_loop retryTimes s) = None /\
    kvStorePtr_ (this (snd (TryGetKvStore_loop retryTimes s))) =
      kvStorePtr_ (this s).
Proof.
  intros Hfail Hkeep. unfold RETRY_TIMES_GET_KVSTORE.
  induction n as [| n IH]; intros retryTimes s Hr Hn;
    rewrite TryGetKvStore_loop_unfold_run; unfold RETRY_TIMES_GET_KVSTORE;
    destruct (Z_lt_dec retryTimes 10) as [Hlt | Hge]; try lia.
  - split; reflexivity.
  - rewrite GetKvStore_unfold. simpl.
    rewrite bool_decide_eq_false_2 by apply Hfail. simpl.
    rewrite int32_wrap_in_range by (unfold Int.in_int32; lia).
    match goal with |- context [TryGetKvStore_loop _ ?s2] =>
      destruct (IH (retryTimes + 1)%Z s2 ltac:(lia) ltac:(lia)) as [Hnone Hptr]
    end.
    split; [exact Hnone |]. rewrite Hptr. simpl. apply Hkeep.
Qed.

(** X11.  If every acquisition fails and leaves the caller's pointer as it
    is, [TryGetKvStore] makes all ten attempts and sleeps ten times, after
    the tenth failure too, 5000 ms in all.  Its answer is then the handle
    the object had when it was called, which it keeps: [true] for an object
    that got a handle earlier, though no attempt has succeeded, and [false]
    for one without. *)
Theorem TryGetKvStore_manager_down (s : Sys) :
  (forall o a i p w, fst (fst (GetSingleKvStore o a i p w)) <> SUCCESS) ->
  (forall o a i p w, snd (fst (GetSingleKvStore o a i p w)) = p) ->
  fst (TryGetKvStore s) = non_null (kvStorePtr_ (this s)) /\
  kvStorePtr_ (this (snd (TryGetKvStore s))) = kvStorePtr_ (this s) /\
  exists evs,
    trace (snd (TryGetKvStore s)) = trace s ++ evs /\
    attempts evs = 10 /\ sleeps evs = 10 /\ slept evs = 5000%Z.
Proof.
  intros Hfail Hkeep.
  destruct (TryGetKvStore_loop_never_success 10 Hfail Hkeep 0 s
              ltac:(unfold RETRY_TIMES_GET_KVSTORE; lia) eq_refl)
    as [Hnone Hptr].
  destruct (TryGetKvStore_loop_from_zero s) as (evs & Htr & _ & Hall & Hcases).
  destruct (slept_loop_events evs Hall) as (Hslept & _).
  rewrite TryGetKvStore_unfold.
  unfold attempts, sleeps, RETRY_TIMES_GET_KVSTORE in *.
  destruct (TryGetKvStore_loop 0 s) as [res s1]. simpl in *. subst res.
  destruct Hcases as [(Hres & _) | (_ & Hatt & Hsl)]; [discriminate |].
  rewrite <- Hptr.
  destruct (kvStorePtr_ (this s1)) as [h |] eqn:Hp; simpl.
  - split; [reflexivity |]. split; [exact Hp |].
    exists evs. repeat split; [assumption | lia | lia | lia].
  - split; [reflexivity |]. split; [exact Hp |].
    exists (evs ++ [EvSetInitStatus INIT_FAILED]).
    rewrite !count_app, !count_cons, !count_nil, slept_app, Htr, app_assoc.
    simpl. repeat split; lia.
Qed.

(** ** Configuration and registration *)


(** X13.  An empty function does not take the slot.  With no callback
    registered, [RegisterKvStoreInitCallback] called with an empty
    [std::function] returns [true] and registers nothing, and the
    registration of a callback after it returns [true] as well and stores
    that callback. *)
Theorem RegisterKvStoreInitCallback_empty_function
    (s : Sys) (cb : KvStoreInitCallback) :
  kvStoreInitCallback_ (this s) = None ->
  let r1 := RegisterKvStoreInitCallback None s in
  let r2 := RegisterKvStoreInitCallback (Some cb) (snd r1) in
  fst r1 = true /\ kvStoreInitCallback_ (this (snd r1)) = None /\
  fst r2 = true /\ kvStoreInitCallback_ (this (snd r2)) = Some cb /\
  fst (register_all [None; Some cb; Some cb] s) = [true; true; false].
Proof.
  intros Hnone r1 r2. subst r1 r2.
  cbn [register_all]. unfold bind, ret.
  rewrite (RegisterKvStoreInitCallback_unfold None s), Hnone.
  cbn [fst snd this].
  rewrite !RegisterKvStoreInitCallback_unfold. simpl.
  rewrite ?RegisterKvStoreInitCallback_unfold. simpl.
  repeat split.
Qed.

End Further.

(** ** The further properties over the map store *)

Lemma PutDeviceProfileBatch_entries_read_back_witness :
  kvStorePtr_ (this opened) = Some tt /\
  length ["a"%string; "b"%string] = length ["x"%string; "y"%string] /\
  (Z.of_nat (length ["a"%string; "b"%string]) < 2 ^ 32)%Z /\
  length ["a"%string; "b"%string] < 3 /\
  exists entries : list Entry,
    trace (snd (PutDeviceProfileBatch 3 ["a"%string; "b"%string]
                  ["x"%string; "y"%string] opened)) = [EvPutBatch tt entries] /\
    map (fun e => ToString (key e)) entries = ["a"%string; "b"%string] /\
    map (fun e => ToString (value e)) entries = ["x"%string; "y"%string].
Proof.
  assert (Hh : kvStorePtr_ (this opened) = Some tt) by reflexivity.
  assert (Hlen : length ["a"%string; "b"%string] = length ["x"%string; "y"%string])
    by reflexivity.
  assert (Hsize : (Z.of_nat (length ["a"%string; "b"%string]) < 2 ^ 32)%Z)
    by reflexivity.
  assert (Hfuel : length ["a"%string; "b"%string] < 3) by (simpl; lia).
  exact (conj Hh (conj Hlen (conj Hsize (conj Hfuel
           (PutDeviceProfileBatch_entries_read_back 3 _ _ opened tt
              Hh Hlen Hsize Hfuel))))).
Defined.

Lemma first_success_after_two_outages :
  first_success 2 (fresh 2) (snd (TryGetKvStore (fresh 2))).
Proof.
  eapply first_success_later; [reflexivity | reflexivity |].
  eapply first_success_later; [reflexivity | reflexivity |].
  apply first_success_now; reflexivity.
Qed.

Lemma TryGetKvStore_first_success_witness :
  first_success 2 (fresh 2) (snd (TryGetKvStore (fresh 2))) /\
  2 < 10 /\
  TryGetKvStore (fresh 2) = (true, snd (TryGetKvStore (fresh 2))) /\
  initStatus_ (this (snd (TryGetKvStore (fresh 2)))) = UNINITED.
Proof.
  assert (Hn : 2 < 10) by lia.
  destruct (TryGetKvStore_first_success 2 (fresh 2) _
              first_success_after_two_outages Hn) as (Hrun & Hinit & _).
  exact (conj first_success_after_two_outages (conj Hn (conj Hrun Hinit))).
Defined.

Lemma Init_success_then_get_witness :
  first_success 2 (fresh 2) (snd (TryGetKvStore (fresh 2))) /\
  2 < 10 /\
  kvStoreInitCallback_ (this (fresh 2)) = None /\
  fst (GetInitStatus (snd (Init (fresh 2)))) = INIT_SUCCEED /\
  kvStorePtr_ (this (snd (Init (fresh 2)))) =
    kvStorePtr_ (this (snd (TryGetKvStore (fresh 2)))).
Proof.
  assert (Hn : 2 < 10) by lia.
  assert (Hnone : kvStoreInitCallback_ (this (fresh 2)) = None) by reflexivity.
  destruct (Init_success_then_get 2 (fresh 2) _ "k" ""
              first_success_after_two_outages Hn Hnone) as (Hst & Hptr & _).
  exact (conj first_success_after_two_outages
           (conj Hn (conj Hnone (conj Hst Hptr)))).
Defined.

Lemma Init_failure_then_accessors_witness :
  fst (TryGetKvStore (fresh 10)) = false /\
  kvStoreInitCallback_ (this (fresh 10)) = None /\
  fst (GetInitStatus (snd (Init (fresh 10)))) = INIT_SUCCEED /\
  fst (PutDeviceProfile "k" "v" (snd (Init (fresh 10)))) = ERR_DP_INVALID_PARAMS.
Proof.
  assert (Hfail : fst (TryGetKvStore (fresh 10)) = false) by reflexivity.
  assert (Hnone : kvStoreInitCallback_ (this (fresh 10)) = None) by reflexivity.
  destruct (Init_failure_then_accessors (fresh 10) "k" "v" "" 0 [] []
              Hfail Hnone) as (Hst & _ & _ & Hput & _).
  refine (conj Hfail (conj Hnone (conj Hst _))).
  rewrite Hput. reflexivity.
Defined.

Lemma Init_invokes_callback_every_time_witness :
  let cb : KvStoreInitCallback := ("restored"%string, "1"%string) in
  let s := snd (RegisterKvStoreInitCallback (Some cb) (fresh 2)) in
  (forall c d w,
     kvStoreInitCallback_ (fst (invoke c (d, w))) = kvStoreInitCallback_ d) /\
  kvStoreInitCallback_ (this s) = Some cb /\
  kvStoreInitCallback_ (this (snd (Init s))) = Some cb /\
  count is_callback (trace (snd (Init (snd (Init s))))) = 2.
Proof.
  intros cb s.
  assert (Hkeep : forall c d w,
    kvStoreInitCallback_ (fst (invoke c (d, w))) = kvStoreInitCallback_ d)
    by (intros c d w; reflexivity).
  assert (Hcb : kvStoreInitCallback_ (this s) = Some cb) by reflexivity.
  destruct (Init_invokes_callback_every_time s cb Hkeep Hcb)
    as (Hslot & evs1 & evs2 & Htr & Hno1 & Hno2).
  refine (conj Hkeep (conj Hcb (conj Hslot _))).
  rewrite Htr, !count_app, !count_cons, !count_nil, Hno1, Hno2. reflexivity.
Defined.

Lemma TryGetKvStore_manager_down_witness :
  (forall o a i p w,
     fst (fst (@GetSingleKvStore DownStore.down_service o a i p w)) <> OK) /\
  (forall o a i p w,
     snd (fst (@GetSingleKvStore DownStore.down_service o a i p w)) = p) /\
  fst (@TryGetKvStore DownStore.down_service map_config DownStore.down_opened) =
    true.
Proof.
  assert (Hfail : forall o a i p w,
    fst (fst (@GetSingleKvStore DownStore.down_service o a i p w)) <> OK)
    by (intros o a i p w; discriminate).
  assert (Hkeep : forall o a i p w,
    snd (fst (@GetSingleKvStore DownStore.down_service o a i p w)) = p)
    by (intros o a i p w; reflexivity).
  destruct (@TryGetKvStore_manager_down DownStore.down_service map_config
              DownStore.down_opened Hfail Hkeep) as (Hres & _).
  exact (conj Hfail (conj Hkeep Hres)).
Defined.

Lemma RegisterKvStoreInitCallback_empty_function_witness :
  let cb : KvStoreInitCallback := ("a"%string, "1"%string) in
  kvStoreInitCallback_ (this (fresh 0)) = None /\
  fst (RegisterKvStoreInitCallback None (fresh 0)) = true /\
  fst (RegisterKvStoreInitCallback (Some cb)
         (snd (RegisterKvStoreInitCallback None (fresh 0)))) = true.
Proof.
  intros cb.
  assert (Hnone : kvStoreInitCallback_ (this (fresh 0)) = None) by reflexivity.
  destruct (RegisterKvStoreInitCallback_empty_function (fresh 0) cb Hnone)
    as (H1 & _ & H2 & _).
  exact (conj Hnone (conj H1 H2)).
Defined.
